(** * Cross-chain vault settlement scripts: a shallow embedding

    The repository is a collection of stand-alone TypeScript entry points
    (one [main] per script) that plan and submit LayerZero OFT transfers
    around an ERC-4626 vault living on a hub chain.  Every script is a
    straight-line asynchronous function: it reads a static [CONFIG], performs
    remote reads (decimals, previews, quotes, allowances), builds one or two
    [SendParam] tuples, optionally submits an approval and finally submits a
    single [send] transaction.

    The embedding keeps that shape:
    - amounts are [Z] (ethers' arbitrary precision [BigNumber]);
    - byte strings (hex strings such as ['0x']) are [list byte];
    - the compose payload is the Solidity ABI encoding the scripts ask
      ethers for, byte for byte, with the decoder the hub applies;
    - JavaScript Numbers are IEEE 754 binary64 values ([spec_float] with 53
      bits of precision), with [parseFloat] and [Number.prototype.toString];
    - remote calls are oracles of an environment [Env], each of which may
      throw; the only mutable chain state the scripts depend on, the ERC-20
      allowance, lives in [World] together with the list of submitted
      transactions;
    - the part of a [main] that only reads (up to its approval block) is a
      computation in [result], named [plan]; from there on [main] runs in
      the state-and-exception monad [M], with [try_catch] for the scripts'
      [try { ... } catch { ... }] blocks.  [console.log] lines are left
      out. *)

From Stdlib Require Import String Ascii.
From Stdlib Require Import ZArith List Bool Lia.
From Stdlib Require Import Floats.SpecFloat.
From coqutil Require Import Byte Word.LittleEndianList.
Import ListNotations.
Local Open Scope string_scope.
Local Open Scope list_scope.
Local Open Scope Z_scope.

(** ** Exceptions *)

(** What a script can throw.  [ConfigError] is a [throw new Error(...)] of
    the script itself; the other constructors are exceptions raised by the
    libraries the scripts call (ethers, lz-v2-utilities) or by a remote
    endpoint. *)
Inductive error : Type :=
| ConfigError (msg : string)
| TypeError (what : string)
| InvalidArgument (what : string)
| NumericFault (what : string)
| CallException (method : string).

Definition result (A : Type) : Type := (error + A)%type.
Definition Ok {A} (a : A) : result A := inr a.
Definition Err {A} (e : error) : result A := inl e.

Definition bytes : Type := list byte.

(** ** ABI words *)

Module Abi.

(** A 32-byte big-endian word, as Solidity's ABI lays out every head
    slot. *)
Definition word (v : Z) : bytes := rev (le_split 32 v).
Definition unword (bs : bytes) : Z := le_combine (rev bs).

Definition zeros (n : nat) : bytes := repeat Byte.x00 n.

(** Number of zero bytes that right-pad [n] bytes to a multiple of 32. *)
Definition padding (n : nat) : nat := ((32 - n mod 32) mod 32)%nat.

(** A dynamic [bytes] value: length word, data, zero padding. *)
Definition dyn (b : bytes) : bytes :=
  word (Z.of_nat (length b)) ++ b ++ zeros (padding (length b)).

Definition slice (off len : nat) (bs : bytes) : bytes :=
  firstn len (skipn off bs).

Definition word_at (off : nat) (bs : bytes) : option Z :=
  let w := slice off 32 bs in
  if (length w =? 32)%nat then Some (unword w) else None.

Definition dyn_at (off : nat) (bs : bytes) : option bytes :=
  match word_at off bs with
  | Some len =>
      let d := slice (off + 32) (Z.to_nat len) bs in
      if (Z.of_nat (length d) =? len) then Some d else None
  | None => None
  end.

End Abi.

(** ** The OFT wire structures *)

(** [SendParam], the tuple
    [(uint32,bytes32,uint256,uint256,bytes,bytes,bytes)] every script
    passes to [quoteSend] and [send]. *)
Record SendParam : Type := mkSendParam {
  dstEid : Z;
  to : bytes;
  amountLD : Z;
  minAmountLD : Z;
  extraOptions : bytes;
  composeMsg : bytes;
  oftCmd : bytes
}.

Record MessagingFee : Type := mkFee {
  nativeFee : Z;
  lzTokenFee : Z
}.

(** The hex literal ['0x']. *)
Definition hex_empty : bytes := [].

Module ComposeCodec.
Import Abi.

Definition uint_ok (bits : Z) (v : Z) : bool :=
  (0 <=? v) && (v <? 2 ^ bits).

(** The tail of the tuple, laid out after its seven head slots. *)
Definition encodeSendParam (p : SendParam) : bytes :=
  let e1 := dyn (extraOptions p) in
  let e2 := dyn (composeMsg p) in
  let e3 := dyn (oftCmd p) in
  let o1 := 224%nat in
  let o2 := (o1 + length e1)%nat in
  let o3 := (o2 + length e2)%nat in
  word (dstEid p) ++ to p ++ word (amountLD p) ++ word (minAmountLD p)
    ++ word (Z.of_nat o1) ++ word (Z.of_nat o2) ++ word (Z.of_nat o3)
    ++ e1 ++ e2 ++ e3.

(** [ethers.utils.defaultAbiCoder.encode(
      ['tuple(uint32,bytes32,uint256,uint256,bytes,bytes,bytes)', 'uint256'],
      [[dstEid, to, amountLD, minAmountLD, extraOptions, composeMsg, oftCmd],
       msgValue])].
    The coder throws when a number does not fit its type or when the
    [bytes32] value is not exactly 32 bytes long. *)
Definition encode (p : SendParam) (msgValue : Z) : result bytes :=
  if negb (uint_ok 32 (dstEid p)) then Err (NumericFault "uint32")
  else if negb (length (to p) =? 32)%nat then Err (InvalidArgument "bytes32")
  else if negb (uint_ok 256 (amountLD p)) then Err (NumericFault "uint256")
  else if negb (uint_ok 256 (minAmountLD p)) then Err (NumericFault "uint256")
  else if negb (uint_ok 256 msgValue) then Err (NumericFault "uint256")
  else Ok (word 64 ++ word msgValue ++ encodeSendParam p).

(** The inverse the hub's composer applies ([abi.decode(msg, (SendParam,
    uint256))]): follow the head offsets. *)
Definition decodeSendParam (t : bytes) : option SendParam :=
  match word_at 0 t, word_at 64 t, word_at 96 t,
        word_at 128 t, word_at 160 t, word_at 192 t with
  | Some eid, Some amt, Some minAmt, Some o1, Some o2, Some o3 =>
      let rcpt := slice 32 32 t in
      match dyn_at (Z.to_nat o1) t, dyn_at (Z.to_nat o2) t,
            dyn_at (Z.to_nat o3) t with
      | Some b1, Some b2, Some b3 =>
          if (length rcpt =? 32)%nat && uint_ok 32 eid
          then Some (mkSendParam eid rcpt amt minAmt b1 b2 b3)
          else None
      | _, _, _ => None
      end
  | _, _, _, _, _, _ => None
  end.

Definition decode (payload : bytes) : option (SendParam * Z) :=
  match word_at 0 payload, word_at 32 payload with
  | Some off, Some v =>
      match decodeSendParam (skipn (Z.to_nat off) payload) with
      | Some p => Some (p, v)
      | None => None
      end
  | _, _ => None
  end.

(** The seven head slots of the tuple, on their own. *)
Definition head (p : SendParam) : bytes :=
  let e1 := dyn (extraOptions p) in
  let e2 := dyn (composeMsg p) in
  word (dstEid p) ++ to p ++ word (amountLD p) ++ word (minAmountLD p)
    ++ word 224 ++ word (Z.of_nat (224 + length e1))
    ++ word (Z.of_nat (224 + length e1 + length e2)).

(** The values the coder accepts. *)
Definition wellFormed (p : SendParam) : Prop :=
  0 <= dstEid p < 2 ^ 32 /\ length (to p) = 32%nat /\
  0 <= amountLD p < 2 ^ 256 /\ 0 <= minAmountLD p < 2 ^ 256.

(** Byte strings whose length fits a length word (every byte string a
    machine can hold does). *)
Definition compact (p : SendParam) : Prop :=
  Z.of_nat (length (extraOptions p)) < 2 ^ 64 /\
  Z.of_nat (length (composeMsg p)) < 2 ^ 64 /\
  Z.of_nat (length (oftCmd p)) < 2 ^ 64.

End ComposeCodec.

(** ** ethers: fixed-point parsing and BigNumber *)

Module Ethers.

(** [ethers.constants.AddressZero]. *)
Definition AddressZero : string := "0x0000000000000000000000000000000000000000".

(** [ethers.constants.MaxUint256]. *)
Definition MaxUint256 : Z := 2 ^ 256 - 1.

(** [Number.MAX_SAFE_INTEGER]. *)
Definition MAX_SAFE_INTEGER : Z := 2 ^ 53 - 1.

(** [BigNumber.prototype.div]: bn.js division, which truncates toward
    zero, and faults on a zero divisor. *)
Definition bn_div (a b : Z) : Z := Z.quot a b.

(** [BigNumber.prototype.toNumber]: faults outside the safe-integer
    range. *)
Definition toNumber (v : Z) : result Z :=
  if (Z.abs v <=? MAX_SAFE_INTEGER) then Ok v else Err (NumericFault "overflow").

Definition is_digit (c : ascii) : bool :=
  let n := N_of_ascii c in ((48 <=? n) && (n <=? 57))%N.

Definition is_dot (c : ascii) : bool := (N_of_ascii c =? 46)%N.
Definition is_minus (c : ascii) : bool := (N_of_ascii c =? 45)%N.
Definition is_zero_char (c : ascii) : bool := (N_of_ascii c =? 48)%N.

(** The character class of [/^-?[0-9.]+$/], after the sign. *)
Fixpoint decimal_chars (s : string) : bool :=
  match s with
  | EmptyString => true
  | String c r => (is_digit c || is_dot c) && decimal_chars r
  end.

(** [String.prototype.split(".")]. *)
Fixpoint split_dot (s : string) : list string :=
  match s with
  | EmptyString => [EmptyString]
  | String c r =>
      if is_dot c then EmptyString :: split_dot r
      else match split_dot r with
           | h :: t => String c h :: t
           | [] => [String c EmptyString]
           end
  end.

(** The loop [while (fraction[fraction.length - 1] === "0") ...]. *)
Fixpoint trim_trailing_zeros (s : string) : string :=
  match s with
  | EmptyString => EmptyString
  | String c r =>
      match trim_trailing_zeros r with
      | EmptyString => if is_zero_char c then EmptyString else String c EmptyString
      | r' => String c r'
      end
  end.

(** Value of a string of decimal digits, most significant first. *)
Fixpoint digits_value (acc : Z) (s : string) : Z :=
  match s with
  | EmptyString => acc
  | String c r => digits_value (10 * acc + (Z.of_N (N_of_ascii c) - 48)) r
  end.

Definition or_zero (s : string) : string :=
  match s with EmptyString => "0" | _ => s end.

(** [parseFixed(value, decimals)] of ethers v5, which [parseUnits]
    delegates to: the value must match [/^-?[0-9.]+$/], be other than ["."]
    and hold at most one point; a missing whole or fractional part counts
    as ["0"]; the fraction, its trailing zeros trimmed, must not be longer
    than [decimals]; the result is [whole * 10^decimals + fraction], the
    fraction right-padded to [decimals] digits. *)
Definition parseUnits (value : string) (decimals : Z) : result Z :=
  let negative := match value with String c _ => is_minus c | _ => false end in
  let body := match value with
              | String c r => if is_minus c then r else value
              | _ => value
              end in
  match body with
  | EmptyString => Err (InvalidArgument "invalid decimal value")
  | _ =>
    if negb (decimal_chars body) then Err (InvalidArgument "invalid decimal value")
    else if String.eqb body "." then Err (InvalidArgument "missing value")
    else
      let comps := split_dot body in
      if (2 <? length comps)%nat
      then Err (InvalidArgument "too many decimal points")
      else
        let whole := or_zero (nth 0 comps EmptyString) in
        let fraction := trim_trailing_zeros (or_zero (nth 1 comps EmptyString)) in
        if (decimals <? Z.of_nat (String.length fraction))
        then Err (NumericFault "fractional component exceeds decimals")
        else
          let pad := decimals - Z.of_nat (String.length fraction) in
          let wei := digits_value 0 whole * 10 ^ decimals
                     + digits_value 0 fraction * 10 ^ pad in
          Ok (if negative then - wei else wei)
  end.

End Ethers.

(** ** JavaScript Numbers (IEEE 754 binary64) *)

Module JsNumber.

Definition prec : Z := 53.
Definition emax : Z := 1024.
Definition number : Type := spec_float.

Definition of_int (n : Z) : number := binary_normalize prec emax n 0 false.
Definition mul : number -> number -> number := SFmul prec emax.
Definition div : number -> number -> number := SFdiv prec emax.
Definition sub : number -> number -> number := SFsub prec emax.

(** The Number value of the decimal [s * 10^e] (round to nearest, ties to
    even). *)
Definition of_decimal (neg : bool) (s e : Z) : number :=
  match s with
  | Zpos m =>
      if 0 <=? e then binary_round prec emax neg (Z.to_pos (Zpos m * 10 ^ e)) 0
      else div (S754_finite neg m 0) (S754_finite false (Z.to_pos (10 ^ (- e))) 0)
  | _ => S754_zero neg
  end.

Fixpoint all_digits (s : string) : bool :=
  match s with
  | EmptyString => true
  | String c r => Ethers.is_digit c && all_digits r
  end.

(** [parseFloat] on the decimal literals [-?digits(.digits)?] the scripts
    feed it (the amount has already been accepted by [parseUnits] when
    [parseFloat] runs); anything else is [NaN] here. *)
Definition parseFloat (s : string) : number :=
  let negative := match s with String c _ => Ethers.is_minus c | _ => false end in
  let body := match s with
              | String c r => if Ethers.is_minus c then r else s
              | _ => s
              end in
  match Ethers.split_dot body with
  | [w] =>
      if all_digits w && negb (String.eqb w "")
      then of_decimal negative (Ethers.digits_value 0 w) 0 else S754_nan
  | [w; f] =>
      if all_digits w && all_digits f && negb (String.eqb (w ++ f)%string "")
      then of_decimal negative (Ethers.digits_value 0 (w ++ f)%string)
                      (- Z.of_nat (String.length f))
      else S754_nan
  | _ => S754_nan
  end.

(** [x < 10^n] for the positive rational [x = num / den]. *)
Definition below_pow10 (num den n : Z) : bool :=
  if 0 <=? n then num <? den * 10 ^ n else num * 10 ^ (- n) <? den.

(** The decimal exponent [n] with [10^(n-1) <= x < 10^n]. *)
Fixpoint decimal_exponent (fuel : nat) (num den n : Z) : Z :=
  match fuel with
  | O => n
  | S fuel' =>
      if below_pow10 num den n then n
      else decimal_exponent fuel' num den (n + 1)
  end.

(** A lower bound for that exponent from the bit lengths:
    [x >= 2^b] with [b = bits num - bits den - 1], and
    [log10 2 = 0.30103] to five places. *)
Definition exponent_guess (num den : Z) : Z :=
  (Z.log2 num - Z.log2 den - 1) * 30103 / 100000 - 1.

Definition same_number (a b : number) : bool :=
  match a, b with
  | S754_finite sa ma ea, S754_finite sb mb eb =>
      Bool.eqb sa sb && Pos.eqb ma mb && Z.eqb ea eb
  | _, _ => false
  end.

(** Shortest digit string: the least [k] such that some [k]-digit [s]
    has [s * 10^(n-k)] rounding to [x]; among two, the closer one. *)
Fixpoint shortest (fuel : nat) (x : number) (num den n k : Z) : Z * Z :=
  match fuel with
  | O => (0, n)
  | S fuel' =>
      let sc := k - n in
      let '(q, r) := if 0 <=? sc then Z.div_eucl (num * 10 ^ sc) den
                     else Z.div_eucl num (den * 10 ^ (- sc)) in
      let d := if 0 <=? sc then den else den * 10 ^ (- sc) in
      let lo_ok := same_number (of_decimal false q (n - k)) x in
      let hi_ok := same_number (of_decimal false (q + 1) (n - k)) x in
      let pick (s : Z) := if s =? 10 ^ k then (10 ^ (k - 1), n + 1) else (s, n) in
      match lo_ok, hi_ok with
      | true, true =>
          match 2 * r ?= d with
          | Lt => pick q
          | Gt => pick (q + 1)
          | Eq => pick (if Z.even q then q else q + 1)
          end
      | true, false => pick q
      | false, true => pick (q + 1)
      | false, false => shortest fuel' x num den n (k + 1)
      end
  end.

Definition digits_of (s : Z) : string :=
  DecimalString.NilZero.string_of_uint (N.to_uint (Z.to_N s)).

Fixpoint zero_string (n : nat) : string :=
  match n with O => EmptyString | S n' => String "0" (zero_string n') end.

(** Trailing zeros of the digit string carry no information: the
    shortest [s] is taken without them and [k] is its length. *)
Definition format_positive (x : number) (m : positive) (e : Z) : string :=
  let num := if 0 <=? e then Zpos m * 2 ^ e else Zpos m in
  let den := if 0 <=? e then 1 else 2 ^ (- e) in
  let n0 := decimal_exponent 8 num den (exponent_guess num den) in
  let '(s, n) := shortest 20 x num den n0 1 in
  let ds := digits_of s in
  let k := Z.of_nat (String.length ds) in
  if (k <=? n) && (n <=? 21) then (ds ++ zero_string (Z.to_nat (n - k)))%string
  else if (0 <? n) && (n <=? 21)
    then (substring 0 (Z.to_nat n) ds ++ "."
          ++ substring (Z.to_nat n) (Z.to_nat (k - n)) ds)%string
  else if (-6 <? n) && (n <=? 0)
    then ("0." ++ zero_string (Z.to_nat (- n)) ++ ds)%string
  else
    let ex := n - 1 in
    let sign := if 0 <=? ex then "+" else "-" in
    let mant := if k =? 1 then ds
                else (substring 0 1 ds ++ "."
                      ++ substring 1 (Z.to_nat (k - 1)) ds)%string in
    (mant ++ "e" ++ sign ++ digits_of (Z.abs ex))%string.

(** [Number.prototype.toString()] (radix 10). *)
Definition toString (x : number) : string :=
  match x with
  | S754_nan => "NaN"
  | S754_zero _ => "0"
  | S754_infinity s => if s then "-Infinity" else "Infinity"
  | S754_finite s m e =>
      ((if s then "-" else "") ++ format_positive (S754_finite false m e) m e)%string
  end.

End JsNumber.

(** ** Results: the scripts' synchronous control flow *)

Definition rbind {A B} (r : result A) (k : A -> result B) : result B :=
  match r with
  | inl e => inl e
  | inr a => k a
  end.

(** [try { r } catch (error) { h }]. *)
Definition rcatch {A} (r : result A) (h : error -> result A) : result A :=
  match r with
  | inl e => h e
  | inr a => inr a
  end.

Notation "'let?' x ':=' r 'in' k" := (rbind r (fun x => k))
  (at level 10, x name, r at level 100, k at level 200).

(** [if (cond) { throw e }]. *)
Definition throw_if (cond : bool) (e : error) : result unit :=
  if cond then Err e else Ok tt.

(** A value that must not be [undefined] when a property is read off it. *)
Definition defined {A} (what : string) (o : option A) : result A :=
  match o with
  | Some a => Ok a
  | None => Err (TypeError what)
  end.

(** JavaScript truthiness of a [string | undefined]: [undefined] and the
    empty string are falsy. *)
Definition truthy (o : option string) : option string :=
  match o with
  | Some EmptyString => None
  | other => other
  end.

(** [a || b] on strings. *)
Definition js_or (a : option string) (b : string) : string :=
  match truthy a with
  | Some s => s
  | None => b
  end.

(** ** The chains *)

(** A contract handle: [new ethers.Contract(address, abi, provider)].  The
    provider is identified by its RPC URL. *)
Record contract : Type := mkContract {
  provider : string;
  address : string
}.

Definition contract_eqb (a b : contract) : bool :=
  String.eqb (provider a) (provider b) && String.eqb (address a) (address b).

(** The two kinds of transaction the scripts submit. *)
Inductive tx : Type :=
| TxApprove (token : contract) (owner spender : string) (amount : Z)
| TxSend (oft : contract) (sender : string) (p : SendParam)
         (fee : MessagingFee) (refund : string) (value : Z).

Definition is_approve (t : tx) : bool :=
  match t with TxApprove _ _ _ _ => true | TxSend _ _ _ _ _ _ => false end.

Definition is_send (t : tx) : bool := negb (is_approve t).

(** Mutable state: ERC-20 allowances and the transactions submitted so far,
    oldest first. *)
Record World : Type := mkWorld {
  allowances : contract -> string -> string -> Z;
  submitted : list tx
}.

(** Everything outside the repository a run depends on: the remote
    endpoints and the two libraries' helpers.  A remote call either returns
    or throws. *)
Record Env : Type := mkEnv {
  (** [new ethers.Wallet(privateKey, provider).address] *)
  walletOf : string -> result string;
  vault_asset : contract -> result string;
  erc20_decimals : contract -> result Z;
  vault_previewDeposit : contract -> Z -> result Z;
  vault_previewRedeem : contract -> Z -> result Z;
  oft_token : contract -> result string;
  oft_approvalRequired : contract -> result bool;
  oft_quoteSend : contract -> SendParam -> bool -> result MessagingFee;
  erc20_allowance_fault : contract -> string -> string -> option error;
  erc20_approve_fault : contract -> string -> string -> Z -> option error;
  oft_send_fault : contract -> string -> SendParam -> MessagingFee -> string -> Z -> option error;
  (** [tx.wait()] rejects when the transaction reverts. *)
  wait_fault : tx -> option error;
  (** [addressToBytes32] of lz-v2-utilities *)
  addressToBytes32 : string -> result bytes;
  (** [Options.newOptions().addExecutorLzReceiveOption(gas, value).toHex()] *)
  addExecutorLzReceiveOption : Z -> Z -> result bytes;
  (** [Options.newOptions().addExecutorComposeOption(index, gas, value).toHex()] *)
  addExecutorComposeOption : Z -> Z -> Z -> result bytes;
  (** [Options.newOptions().addExecutorLzComposeOption(index, gas, value).toHex()] *)
  addExecutorLzComposeOption : Z -> Z -> Z -> result bytes
}.

(** The same environment with another [quoteSend]. *)
Definition with_quoteSend (env : Env)
    (quote : contract -> SendParam -> bool -> result MessagingFee) : Env :=
  {| walletOf := walletOf env;
     vault_asset := vault_asset env;
     erc20_decimals := erc20_decimals env;
     vault_previewDeposit := vault_previewDeposit env;
     vault_previewRedeem := vault_previewRedeem env;
     oft_token := oft_token env;
     oft_approvalRequired := oft_approvalRequired env;
     oft_quoteSend := quote;
     erc20_allowance_fault := erc20_allowance_fault env;
     erc20_approve_fault := erc20_approve_fault env;
     oft_send_fault := oft_send_fault env;
     wait_fault := wait_fault env;
     addressToBytes32 := addressToBytes32 env;
     addExecutorLzReceiveOption := addExecutorLzReceiveOption env;
     addExecutorComposeOption := addExecutorComposeOption env;
     addExecutorLzComposeOption := addExecutorLzComposeOption env |}.

(** The same environment with another [previewDeposit]. *)
Definition with_previewDeposit (env : Env)
    (preview : contract -> Z -> result Z) : Env :=
  {| walletOf := walletOf env;
     vault_asset := vault_asset env;
     erc20_decimals := erc20_decimals env;
     vault_previewDeposit := preview;
     vault_previewRedeem := vault_previewRedeem env;
     oft_token := oft_token env;
     oft_approvalRequired := oft_approvalRequired env;
     oft_quoteSend := oft_quoteSend env;
     erc20_allowance_fault := erc20_allowance_fault env;
     erc20_approve_fault := erc20_approve_fault env;
     oft_send_fault := oft_send_fault env;
     wait_fault := wait_fault env;
     addressToBytes32 := addressToBytes32 env;
     addExecutorLzReceiveOption := addExecutorLzReceiveOption env;
     addExecutorComposeOption := addExecutorComposeOption env;
     addExecutorLzComposeOption := addExecutorLzComposeOption env |}.

(** ** Asynchronous code: state and exceptions *)

Definition M (A : Type) : Type := World -> World * result A.

Definition ret {A} (a : A) : M A := fun w => (w, Ok a).

Definition bind {A B} (m : M A) (k : A -> M B) : M B :=
  fun w =>
    match m w with
    | (w', inl e) => (w', inl e)
    | (w', inr a) => k a w'
    end.

(** A read-only step: the world is left as it is. *)
Definition lift {A} (r : result A) : M A := fun w => (w, r).

(** [try { m } catch { h }]: what [m] did before throwing stays done. *)
Definition try_catch {A} (m : M A) (h : error -> M A) : M A :=
  fun w =>
    match m w with
    | (w', inl e) => h e w'
    | (w', inr a) => (w', inr a)
    end.

Notation "x <- m ;; k" := (bind m (fun x => k))
  (at level 61, m at next level, right associativity).

Definition submit (t : tx) (w : World) : World :=
  mkWorld (allowances w) (submitted w ++ [t]).

(** ERC-20 [approve] sets the spender's allowance to the given amount once
    the transaction is mined. *)
Definition mined (t : tx) (w : World) : World :=
  match t with
  | TxApprove token owner spender amount =>
      mkWorld
        (fun c o s =>
           if contract_eqb c token && String.eqb o owner && String.eqb s spender
           then amount else allowances w c o s)
        (submitted w)
  | TxSend _ _ _ _ _ _ => w
  end.

(** [await erc20.allowance(owner, spender)] *)
Definition allowance (env : Env) (token : contract) (owner spender : string) : M Z :=
  fun w =>
    match erc20_allowance_fault env token owner spender with
    | Some e => (w, Err e)
    | None => (w, Ok (allowances w token owner spender))
    end.

(** [await erc20.approve(spender, amount)], signed by [owner] *)
Definition approve (env : Env) (token : contract) (owner spender : string)
    (amount : Z) : M tx :=
  fun w =>
    match erc20_approve_fault env token owner spender amount with
    | Some e => (w, Err e)
    | None =>
        let t := TxApprove token owner spender amount in
        (submit t w, Ok t)
    end.

(** [await oft.send(sendParam, fee, refundAddress, { value })] *)
Definition send (env : Env) (oft : contract) (sender : string) (p : SendParam)
    (fee : MessagingFee) (refund : string) (value : Z) : M tx :=
  fun w =>
    match oft_send_fault env oft sender p fee refund value with
    | Some e => (w, Err e)
    | None =>
        let t := TxSend oft sender p fee refund value in
        (submit t w, Ok t)
    end.

(** [await tx.wait()] *)
Definition wait (env : Env) (t : tx) : M unit :=
  fun w =>
    match wait_fault env t with
    | Some e => (w, Err e)
    | None => (mined t w, Ok tt)
    end.

Record ChainConfig : Type := mkChain {
  eid : Z;
  rpcUrl : string;
  name : string
}.

(** [CONFIG.chains[key]] *)
Fixpoint chain_lookup (key : string) (chains : list (string * ChainConfig))
    : option ChainConfig :=
  match chains with
  | [] => None
  | (k, c) :: rest => if String.eqb k key then Some c else chain_lookup key rest
  end.

(** ** Blocks the scripts repeat verbatim *)

Module Common.
Import Ethers JsNumber.

(** [// Preview vault deposit] (and redemption):
    [try { expected = (await vault.preview...(input)).toString() }
     catch { expected = input.toString() }]. *)
Definition previewOrOneToOne (preview : result Z) (inputAmountUnits : Z) : result Z :=
  rcatch preview (fun _ => Ok inputAmountUnits).

(** [// Calculate minAmount with slippage]:
    [if (CONFIG.transaction.minAmount) parseUnits(minAmount, decimals)
     else BigNumber.from(expected).mul(10000 - slippageBps).div(10000)]
    with the literal [slippageBps = 50]. *)
Definition minAmountWithSlippage (minAmount : option string) (decimals : Z)
    (expected : Z) : result Z :=
  match truthy minAmount with
  | Some m => parseUnits m decimals
  | None =>
      let slippageBps := 50 in
      Ok (bn_div (expected * (10000 - slippageBps)) 10000)
  end.

(** [(parseFloat(amount) * (1 - slippageBps / 10000)).toString()], an
    expression on JavaScript Numbers. *)
Definition scaledAmountString (amount : string) (slippageBps : Z) : string :=
  toString
    (mul (parseFloat amount)
         (sub (of_int 1) (div (of_int slippageBps) (of_int 10000)))).

(** [// Calculate first hop min amount with slippage]:
    [parseUnits(CONFIG.transaction.minAmount ||
                (parseFloat(CONFIG.transaction.amount)
                   * (1 - slippageBps / 10000)).toString(), decimals)]. *)
Definition firstHopMinAmount (minAmount : option string) (amount : string)
    (decimals : Z) : result Z :=
  let slippageBps := 50 in
  parseUnits (js_or minAmount (scaledAmountString amount slippageBps)) decimals.

(** [// Handle approval for ERC20 tokens]:
    [if (!isNativeToken) { try { ... } catch { log } }]. *)
Definition handleApproval (env : Env) (isNativeToken : bool) (oft : contract)
    (underlyingToken wallet spender : string) (amountUnits : Z) : M unit :=
  if negb isNativeToken then
    try_catch
      (approvalRequired <- lift (oft_approvalRequired env oft) ;;
       if (approvalRequired : bool) then
         let erc20 := mkContract (provider oft) underlyingToken in
         currentAllowance <- allowance env erc20 wallet spender ;;
         if currentAllowance <? amountUnits then
           approveTx <- approve env erc20 wallet spender amountUnits ;;
           wait env approveTx
         else ret tt
       else ret tt)
      (fun _ => ret tt)
  else ret tt.

(** [const txValue = isNativeToken ? msgFee.nativeFee.add(amount)
                                   : msgFee.nativeFee]. *)
Definition txValue (isNativeToken : bool) (msgFee : MessagingFee) (amountUnits : Z) : Z :=
  if isNativeToken then nativeFee msgFee + amountUnits else nativeFee msgFee.

(** [// Quote the transaction] and [// Send the transaction], for the
    scripts whose asset may be the native currency. *)
Definition quoteAndSend (env : Env) (oft : contract) (wallet : string)
    (sendParam : SendParam) (isNativeToken : bool) (amountUnits : Z) : M unit :=
  msgFee <- lift (oft_quoteSend env oft sendParam false) ;;
  let value := txValue isNativeToken msgFee amountUnits in
  t <- send env oft wallet sendParam msgFee wallet value ;;
  wait env t.

End Common.

(** ** scripts/1-asset-deposit-cross-chain.ts *)

Module Script1.
Import Ethers.

Record Config : Type := mkConfig {
  privateKey : string;
  chains : list (string * ChainConfig);
  hub_vault : string;
  hub_composer : string;
  hub_assetOFT : string;
  hub_shareOFT : string;
  source_assetOFT : string;
  destination_shareOFT : string;
  srcChain : string;
  dstChain : string;
  hubChain : string;
  amount : string;
  recipientAddress : string;
  minAmount : option string;
  lzComposeGas : Z;
  (** a decimal string, held as the integer it denotes; [None] is
      [undefined] *)
  lzComposeValue : option Z
}.

(** The fee used when the second-hop quote throws: 0.025 ETH in wei. *)
Definition defaultComposeValue : Z := 25000000000000000.

(** [// Quote second hop], down to the reset for a hub destination. *)
Definition quoteSecondHop (env : Env) (CONFIG : Config) (shareOFT : contract)
    (dstEid hubEid : Z) (secondHopSendParam : SendParam) : Z :=
  let configured := match lzComposeValue CONFIG with Some _ => true | None => false end in
  let initial := match lzComposeValue CONFIG with Some v => v | None => 0 end in
  let quoted :=
    if negb configured && negb (dstEid =? hubEid) then
      match oft_quoteSend env shareOFT secondHopSendParam false with
      | inr quoteFee => nativeFee quoteFee
      | inl _ => defaultComposeValue
      end
    else initial in
  if dstEid =? hubEid then 0 else quoted.

(** What [main] has established when it reaches the approval block. *)
Record Plan : Type := mkPlan {
  srcOFT : contract;
  srcWallet : string;
  inputAmountUnits : Z;
  secondHopSendParam : SendParam;
  composeValue : Z;
  sendParam : SendParam;
  underlyingToken : string;
  isNativeToken : bool
}.

(** [main] from its first line to [// Check if asset is native or ERC20]:
    configuration checks, remote reads and the two [SendParam]s. *)
Definition plan (env : Env) (CONFIG : Config) : result Plan :=
  let? _ := throw_if (String.eqb (privateKey CONFIG) "YOUR_PRIVATE_KEY_HERE")
              (ConfigError "Please set CONFIG.privateKey in the script") in
  let? _ := throw_if (String.eqb (recipientAddress CONFIG) "0xYourRecipientAddressHere")
              (ConfigError "Please set CONFIG.transaction.recipientAddress in the script") in
  let? _ := throw_if (String.eqb (hub_composer CONFIG) "0xYourOVaultComposerAddress")
              (ConfigError "Please set contract addresses in CONFIG.contracts") in
  let? _ := throw_if (String.eqb (srcChain CONFIG) (hubChain CONFIG))
              (ConfigError "Source chain cannot be hub chain") in
  let? srcChainConfig := defined "srcChainConfig" (chain_lookup (srcChain CONFIG) (chains CONFIG)) in
  let? hubChainConfig := defined "hubChainConfig" (chain_lookup (hubChain CONFIG) (chains CONFIG)) in
  let? dstChainConfig := defined "dstChainConfig" (chain_lookup (dstChain CONFIG) (chains CONFIG)) in
  let srcProvider := rpcUrl srcChainConfig in
  let hubProvider := rpcUrl hubChainConfig in
  let? srcWallet := walletOf env (privateKey CONFIG) in
  let? hubWallet := walletOf env (privateKey CONFIG) in
  let vault := mkContract hubProvider (hub_vault CONFIG) in
  let? assetAddress := vault_asset env vault in
  let assetToken := mkContract hubProvider assetAddress in
  let? assetDecimals := erc20_decimals env assetToken in
  let shareToken := mkContract hubProvider (hub_vault CONFIG) in
  let? shareDecimals := erc20_decimals env shareToken in
  let? inputAmountUnits := parseUnits (amount CONFIG) assetDecimals in
  let? expectedOutputAmount :=
    Common.previewOrOneToOne (vault_previewDeposit env vault inputAmountUnits)
      inputAmountUnits in
  let? minAmountOut :=
    Common.minAmountWithSlippage (minAmount CONFIG) shareDecimals expectedOutputAmount in
  let? recipient32 := addressToBytes32 env (recipientAddress CONFIG) in
  let? receiveOptions := addExecutorLzReceiveOption env 100000 0 in
  let secondHopSendParam :=
    {| dstEid := eid dstChainConfig;
       to := recipient32;
       amountLD := expectedOutputAmount;
       minAmountLD := minAmountOut;
       extraOptions := receiveOptions;
       composeMsg := hex_empty;
       oftCmd := hex_empty |} in
  let shareOFT := mkContract hubProvider (hub_shareOFT CONFIG) in
  let lzComposeValue :=
    quoteSecondHop env CONFIG shareOFT (eid dstChainConfig) (eid hubChainConfig)
      secondHopSendParam in
  let? composeMsg := ComposeCodec.encode secondHopSendParam lzComposeValue in
  let? extraOptions :=
    addExecutorLzComposeOption env 0 (lzComposeGas CONFIG) lzComposeValue in
  let? firstHopMinAmount :=
    Common.firstHopMinAmount (minAmount CONFIG) (amount CONFIG) assetDecimals in
  let? composer32 := addressToBytes32 env (hub_composer CONFIG) in
  let sendParam :=
    {| dstEid := eid hubChainConfig;
       to := composer32;
       amountLD := inputAmountUnits;
       minAmountLD := firstHopMinAmount;
       extraOptions := extraOptions;
       composeMsg := composeMsg;
       oftCmd := hex_empty |} in
  let srcOFT := mkContract srcProvider (source_assetOFT CONFIG) in
  let? underlyingToken := oft_token env srcOFT in
  let isNativeToken := String.eqb underlyingToken AddressZero in
  Ok (mkPlan srcOFT srcWallet inputAmountUnits secondHopSendParam lzComposeValue
             sendParam underlyingToken isNativeToken).

Definition main (env : Env) (CONFIG : Config) : M unit :=
  p <- lift (plan env CONFIG) ;;
  _ <- Common.handleApproval env (isNativeToken p) (srcOFT p) (underlyingToken p)
         (srcWallet p) (source_assetOFT CONFIG) (inputAmountUnits p) ;;
  Common.quoteAndSend env (srcOFT p) (srcWallet p) (sendParam p)
    (isNativeToken p) (inputAmountUnits p).

End Script1.

(** ** scripts/11-base-to-katana-atomic.ts *)

Module Script11.
Import Ethers.

Record Config : Type := mkConfig {
  base_rpcUrl : string;
  base_eid : Z;
  base_usdc : string;
  base_stargatePoolUSDC : string;
  ethereum_rpcUrl : string;
  ethereum_eid : Z;
  ethereum_composer : string;
  ethereum_vault : string;
  ethereum_shareOFT : string;
  katana_eid : Z;
  privateKey : string;
  recipientAddress : string;
  usdcAmount : string;
  composeGas : Z;
  slippageBps : Z
}.

(** [CONFIG] as committed. *)
Definition CONFIG : Config :=
  {| base_rpcUrl := "https://mainnet.base.org";
     base_eid := 30184;
     base_usdc := "0x833589fcd6edb6e08f4c7c32d4f71b54bda02913";
     base_stargatePoolUSDC := "0x27a16dc786820B16E5c9028b75B99F6f604b5d26";
     ethereum_rpcUrl := "https://ethereum-rpc.publicnode.com";
     ethereum_eid := 30101;
     ethereum_composer := "0x8A35897fda9E024d2aC20a937193e099679eC477";
     ethereum_vault := "0x53E82ABbb12638F09d9e624578ccB666217a765e";
     ethereum_shareOFT := "0xb5bADA33542a05395d504a25885e02503A957Bb3";
     katana_eid := 30375;
     privateKey := "<YOUR_PRIVATE_KEY_HERE>";
     recipientAddress := "<YOUR_RECIPIENT_ADDRESS_HERE>";
     usdcAmount := "0.2";
     composeGas := 1000000;
     slippageBps := 50 |}.

(** [amount.mul(10000 - slippageBps).div(10000)] *)
Definition calculateMinAmount (amount slippageBps : Z) : Z :=
  bn_div (amount * (10000 - slippageBps)) 10000.

(** [secondHopFee.mul(120).div(100)] *)
Definition withBuffer (secondHopFee : Z) : Z := bn_div (secondHopFee * 120) 100.

Record Plan : Type := mkPlan {
  baseWallet : string;
  usdcAmountUnits : Z;
  expectedShares : Z;
  secondHopSendParam : SendParam;
  secondHopFee : Z;
  composeValue : Z;
  firstHopSendParam : SendParam;
  firstHopFee : Z
}.

(** Steps 1 to 5 of [main]. *)
Definition plan (env : Env) (CONFIG : Config) : result Plan :=
  let? _ := throw_if (String.eqb (privateKey CONFIG) "YOUR_PRIVATE_KEY_HERE")
              (ConfigError "Please set your private key in the CONFIG") in
  let baseProvider := base_rpcUrl CONFIG in
  let ethProvider := ethereum_rpcUrl CONFIG in
  let? baseWallet := walletOf env (privateKey CONFIG) in
  let? usdcAmount := parseUnits (usdcAmount CONFIG) 6 in
  let vault := mkContract ethProvider (ethereum_vault CONFIG) in
  let? expectedShares := vault_previewDeposit env vault usdcAmount in
  let? shareDecimals := erc20_decimals env vault in
  let minShares := calculateMinAmount expectedShares (slippageBps CONFIG) in
  let? recipient32 := addressToBytes32 env (recipientAddress CONFIG) in
  let? receiveOptions := addExecutorLzReceiveOption env 100000 0 in
  let secondHopSendParam :=
    {| dstEid := katana_eid CONFIG;
       to := recipient32;
       amountLD := expectedShares;
       minAmountLD := minShares;
       extraOptions := receiveOptions;
       composeMsg := hex_empty;
       oftCmd := hex_empty |} in
  let shareOFT := mkContract ethProvider (ethereum_shareOFT CONFIG) in
  let? secondHopQuote := oft_quoteSend env shareOFT secondHopSendParam false in
  let secondHopFee := nativeFee secondHopQuote in
  let secondHopFeeWithBuffer := withBuffer secondHopFee in
  let? composeMsg := ComposeCodec.encode secondHopSendParam secondHopFeeWithBuffer in
  let composeValue := secondHopFeeWithBuffer in
  let? composeValueNumber := toNumber composeValue in
  let? extraOptions :=
    addExecutorComposeOption env 0 (composeGas CONFIG) composeValueNumber in
  let minUSDC := calculateMinAmount usdcAmount (slippageBps CONFIG) in
  let? composer32 := addressToBytes32 env (ethereum_composer CONFIG) in
  let firstHopSendParam :=
    {| dstEid := ethereum_eid CONFIG;
       to := composer32;
       amountLD := usdcAmount;
       minAmountLD := minUSDC;
       extraOptions := extraOptions;
       composeMsg := composeMsg;
       oftCmd := hex_empty |} in
  let stargatePool := mkContract baseProvider (base_stargatePoolUSDC CONFIG) in
  let? firstHopQuote := oft_quoteSend env stargatePool firstHopSendParam false in
  let firstHopFee := nativeFee firstHopQuote in
  Ok (mkPlan baseWallet usdcAmount expectedShares secondHopSendParam secondHopFee
             composeValue firstHopSendParam firstHopFee).

(** Step 6: [// Check and Approve USDC]. *)
Definition approveUSDC (env : Env) (CONFIG : Config) (baseWallet : string)
    (usdcAmount : Z) : M unit :=
  let usdc := mkContract (base_rpcUrl CONFIG) (base_usdc CONFIG) in
  currentAllowance <- allowance env usdc baseWallet (base_stargatePoolUSDC CONFIG) ;;
  if currentAllowance <? usdcAmount then
    approveTx <- approve env usdc baseWallet (base_stargatePoolUSDC CONFIG) MaxUint256 ;;
    wait env approveTx
  else ret tt.

Definition main (env : Env) (CONFIG : Config) : M unit :=
  p <- lift (plan env CONFIG) ;;
  _ <- approveUSDC env CONFIG (baseWallet p) (usdcAmountUnits p) ;;
  let stargatePoolWithSigner :=
    mkContract (base_rpcUrl CONFIG) (base_stargatePoolUSDC CONFIG) in
  let messagingFee := {| nativeFee := firstHopFee p; lzTokenFee := 0 |} in
  t <- send env stargatePoolWithSigner (baseWallet p) (firstHopSendParam p)
         messagingFee (baseWallet p) (firstHopFee p) ;;
  wait env t.

End Script11.

(** ** unnamed/part_001: the spoke-to-hub deposit (script 7, mainnet
    configuration) *)

Module Part001.
Import Ethers.

Record Config : Type := mkConfig {
  privateKey : string;
  chains : list (string * ChainConfig);
  hub_vault : string;
  hub_composer : string;
  source_assetOFT : string;
  srcChain : string;
  hubChain : string;
  amount : string;
  recipientAddress : string;
  minAmount : option string;
  lzComposeGas : Z
}.

Record Plan : Type := mkPlan {
  srcOFT : contract;
  srcWallet : string;
  hubEid : Z;
  inputAmountUnits : Z;
  secondHopSendParam : SendParam;
  sendParam : SendParam;
  underlyingToken : string;
  isNativeToken : bool
}.

Definition plan (env : Env) (CONFIG : Config) : result Plan :=
  let? _ := throw_if (String.eqb (privateKey CONFIG) "YOUR_PRIVATE_KEY_HERE")
              (ConfigError "Please set CONFIG.privateKey in the script") in
  let? _ := throw_if (String.eqb (recipientAddress CONFIG) "0xYourRecipientAddressHere")
              (ConfigError "Please set CONFIG.transaction.recipientAddress in the script") in
  let? _ := throw_if (String.eqb (hub_composer CONFIG) "0xYourOVaultComposerAddress")
              (ConfigError "Please set contract addresses in CONFIG.contracts") in
  let? srcChainConfig := defined "srcChainConfig" (chain_lookup (srcChain CONFIG) (chains CONFIG)) in
  let? hubChainConfig := defined "hubChainConfig" (chain_lookup (hubChain CONFIG) (chains CONFIG)) in
  let srcProvider := rpcUrl srcChainConfig in
  let hubProvider := rpcUrl hubChainConfig in
  let? srcWallet := walletOf env (privateKey CONFIG) in
  let vault := mkContract hubProvider (hub_vault CONFIG) in
  let? assetAddress := vault_asset env vault in
  let assetToken := mkContract hubProvider assetAddress in
  let? assetDecimals := erc20_decimals env assetToken in
  let shareToken := mkContract hubProvider (hub_vault CONFIG) in
  let? shareDecimals := erc20_decimals env shareToken in
  let? inputAmountUnits := parseUnits (amount CONFIG) assetDecimals in
  let? expectedOutputAmount :=
    Common.previewOrOneToOne (vault_previewDeposit env vault inputAmountUnits)
      inputAmountUnits in
  let? minAmountOut :=
    Common.minAmountWithSlippage (minAmount CONFIG) shareDecimals expectedOutputAmount in
  let? recipient32 := addressToBytes32 env (recipientAddress CONFIG) in
  let? receiveOptions := addExecutorLzReceiveOption env 100000 0 in
  let secondHopSendParam :=
    {| dstEid := eid hubChainConfig;
       to := recipient32;
       amountLD := expectedOutputAmount;
       minAmountLD := minAmountOut;
       extraOptions := receiveOptions;
       composeMsg := hex_empty;
       oftCmd := hex_empty |} in
  let lzComposeValue := 0 in
  let? composeMsg := ComposeCodec.encode secondHopSendParam lzComposeValue in
  let? extraOptions :=
    addExecutorComposeOption env 0 (lzComposeGas CONFIG) lzComposeValue in
  let? firstHopMinAmount :=
    Common.firstHopMinAmount (minAmount CONFIG) (amount CONFIG) assetDecimals in
  let? composer32 := addressToBytes32 env (hub_composer CONFIG) in
  let sendParam :=
    {| dstEid := eid hubChainConfig;
       to := composer32;
       amountLD := inputAmountUnits;
       minAmountLD := firstHopMinAmount;
       extraOptions := extraOptions;
       composeMsg := composeMsg;
       oftCmd := hex_empty |} in
  let srcOFT := mkContract srcProvider (source_assetOFT CONFIG) in
  let? underlyingToken := oft_token env srcOFT in
  let isNativeToken := String.eqb underlyingToken AddressZero in
  Ok (mkPlan srcOFT srcWallet (eid hubChainConfig) inputAmountUnits
             secondHopSendParam sendParam underlyingToken isNativeToken).

(** The closing [try { quote; send; wait } catch (error) { throw error }]
    rethrows, so it is the plain sequence. *)
Definition main (env : Env) (CONFIG : Config) : M unit :=
  p <- lift (plan env CONFIG) ;;
  _ <- Common.handleApproval env (isNativeToken p) (srcOFT p) (underlyingToken p)
         (srcWallet p) (source_assetOFT CONFIG) (inputAmountUnits p) ;;
  Common.quoteAndSend env (srcOFT p) (srcWallet p) (sendParam p)
    (isNativeToken p) (inputAmountUnits p).

End Part001.

(** ** scripts/8-spoke-to-hub-redemption.ts *)

Module Script8.
Import Ethers.

Record Config : Type := mkConfig {
  privateKey : string;
  chains : list (string * ChainConfig);
  hub_vault : string;
  hub_composer : string;
  source_shareOFT : string;
  srcChain : string;
  hubChain : string;
  amount : string;
  recipientAddress : string;
  minAmount : option string;
  lzComposeGas : Z
}.

Record Plan : Type := mkPlan {
  srcOFT : contract;
  srcWallet : string;
  hubEid : Z;
  inputAmountUnits : Z;
  secondHopSendParam : SendParam;
  sendParam : SendParam
}.

Definition plan (env : Env) (CONFIG : Config) : result Plan :=
  let? _ := throw_if (String.eqb (privateKey CONFIG) "YOUR_PRIVATE_KEY_HERE")
              (ConfigError "Please set CONFIG.privateKey in the script") in
  let? _ := throw_if (String.eqb (recipientAddress CONFIG) "0xYourRecipientAddressHere")
              (ConfigError "Please set CONFIG.transaction.recipientAddress in the script") in
  let? _ := throw_if (String.eqb (hub_composer CONFIG) "0xYourOVaultComposerAddress")
              (ConfigError "Please set contract addresses in CONFIG.contracts") in
  let? srcChainConfig := defined "srcChainConfig" (chain_lookup (srcChain CONFIG) (chains CONFIG)) in
  let? hubChainConfig := defined "hubChainConfig" (chain_lookup (hubChain CONFIG) (chains CONFIG)) in
  let srcProvider := rpcUrl srcChainConfig in
  let hubProvider := rpcUrl hubChainConfig in
  let? srcWallet := walletOf env (privateKey CONFIG) in
  let vault := mkContract hubProvider (hub_vault CONFIG) in
  let? assetAddress := vault_asset env vault in
  let assetToken := mkContract hubProvider assetAddress in
  let? assetDecimals := erc20_decimals env assetToken in
  let shareToken := mkContract hubProvider (hub_vault CONFIG) in
  let? shareDecimals := erc20_decimals env shareToken in
  let? inputAmountUnits := parseUnits (amount CONFIG) shareDecimals in
  let? expectedOutputAmount :=
    Common.previewOrOneToOne (vault_previewRedeem env vault inputAmountUnits)
      inputAmountUnits in
  let? minAmountOut :=
    Common.minAmountWithSlippage (minAmount CONFIG) assetDecimals expectedOutputAmount in
  let? recipient32 := addressToBytes32 env (recipientAddress CONFIG) in
  let? receiveOptions := addExecutorLzReceiveOption env 100000 0 in
  let secondHopSendParam :=
    {| dstEid := eid hubChainConfig;
       to := recipient32;
       amountLD := expectedOutputAmount;
       minAmountLD := minAmountOut;
       extraOptions := receiveOptions;
       composeMsg := hex_empty;
       oftCmd := hex_empty |} in
  let lzComposeValue := 0 in
  let? composeMsg := ComposeCodec.encode secondHopSendParam lzComposeValue in
  let? extraOptions :=
    addExecutorComposeOption env 0 (lzComposeGas CONFIG) lzComposeValue in
  let? firstHopMinAmount :=
    Common.firstHopMinAmount (minAmount CONFIG) (amount CONFIG) shareDecimals in
  let? composer32 := addressToBytes32 env (hub_composer CONFIG) in
  let sendParam :=
    {| dstEid := eid hubChainConfig;
       to := composer32;
       amountLD := inputAmountUnits;
       minAmountLD := firstHopMinAmount;
       extraOptions := extraOptions;
       composeMsg := composeMsg;
       oftCmd := hex_empty |} in
  let srcOFT := mkContract srcProvider (source_shareOFT CONFIG) in
  Ok (mkPlan srcOFT srcWallet (eid hubChainConfig) inputAmountUnits
             secondHopSendParam sendParam).

(** Shares are always ERC-20 here: the value sent is the quoted fee. *)
Definition main (env : Env) (CONFIG : Config) : M unit :=
  p <- lift (plan env CONFIG) ;;
  msgFee <- lift (oft_quoteSend env (srcOFT p) (sendParam p) false) ;;
  t <- send env (srcOFT p) (srcWallet p) (sendParam p) msgFee (srcWallet p)
         (nativeFee msgFee) ;;
  wait env t.

End Script8.

(** ** scripts/5-hub-to-spoke-assets.ts *)

Module Script5.
Import Ethers.

Record Config : Type := mkConfig {
  privateKey : string;
  chains : list (string * ChainConfig);
  hubAssetOFT : string;
  srcChain : string;
  dstChain : string;
  amount : string;
  recipientAddress : string;
  minAmount : option string;
  lzReceiveGas : Z
}.

(** What [main] knows before the approval block. *)
Record Setup : Type := mkSetup {
  oft : contract;
  wallet : string;
  dstChainEid : Z;
  underlyingToken : string;
  isNativeToken : bool;
  decimals : Z;
  amountUnits : Z
}.

Definition setup (env : Env) (CONFIG : Config) : result Setup :=
  let? _ := throw_if (String.eqb (privateKey CONFIG) "YOUR_PRIVATE_KEY_HERE")
              (ConfigError "Please set CONFIG.privateKey in the script") in
  let? _ := throw_if (String.eqb (recipientAddress CONFIG) "0xYourRecipientAddressHere")
              (ConfigError "Please set CONFIG.transaction.recipientAddress in the script") in
  let? _ := throw_if (String.eqb (hubAssetOFT CONFIG) "0xYourAssetOFTOnHubAddress")
              (ConfigError "Please set CONFIG.contracts.hubAssetOFT") in
  let? srcChainConfig := defined "srcChainConfig" (chain_lookup (srcChain CONFIG) (chains CONFIG)) in
  let? dstChainConfig := defined "dstChainConfig" (chain_lookup (dstChain CONFIG) (chains CONFIG)) in
  let provider := rpcUrl srcChainConfig in
  let? wallet := walletOf env (privateKey CONFIG) in
  let oft := mkContract provider (hubAssetOFT CONFIG) in
  let? underlyingToken := oft_token env oft in
  let isNativeToken := String.eqb underlyingToken AddressZero in
  let? decimals :=
    if isNativeToken then Ok 18
    else erc20_decimals env (mkContract provider underlyingToken) in
  let? amountUnits := parseUnits (amount CONFIG) decimals in
  Ok (mkSetup oft wallet (eid dstChainConfig) underlyingToken isNativeToken
              decimals amountUnits).

(** [// Calculate min amount with slippage] to [// Build SendParam]. *)
Definition buildSendParam (env : Env) (CONFIG : Config) (s : Setup) : result SendParam :=
  let slippageBps := 50 in
  let? minAmount :=
    match truthy (minAmount CONFIG) with
    | Some m => parseUnits m (decimals s)
    | None => Ok (bn_div (amountUnits s * (10000 - slippageBps)) 10000)
    end in
  let? options := addExecutorLzReceiveOption env (lzReceiveGas CONFIG) 0 in
  let? recipient32 := addressToBytes32 env (recipientAddress CONFIG) in
  Ok {| dstEid := dstChainEid s;
        to := recipient32;
        amountLD := amountUnits s;
        minAmountLD := minAmount;
        extraOptions := options;
        composeMsg := hex_empty;
        oftCmd := hex_empty |}.

Definition main (env : Env) (CONFIG : Config) : M unit :=
  s <- lift (setup env CONFIG) ;;
  _ <- Common.handleApproval env (isNativeToken s) (oft s) (underlyingToken s)
         (wallet s) (hubAssetOFT CONFIG) (amountUnits s) ;;
  sendParam <- lift (buildSendParam env CONFIG s) ;;
  Common.quoteAndSend env (oft s) (wallet s) sendParam (isNativeToken s)
    (amountUnits s).

End Script5.

(** ** A concrete deployment to run the scripts on *)

Module Scenario.
Import Ethers.

Definition hex_digit (c : ascii) : option Z :=
  let n := Z.of_N (N_of_ascii c) in
  if (48 <=? n) && (n <=? 57) then Some (n - 48)
  else if (97 <=? n) && (n <=? 102) then Some (n - 87)
  else if (65 <=? n) && (n <=? 70) then Some (n - 55)
  else None.

Fixpoint hex_value (acc : Z) (s : string) : option Z :=
  match s with
  | EmptyString => Some acc
  | String c r =>
      match hex_digit c with
      | Some d => hex_value (16 * acc + d) r
      | None => None
      end
  end.

(** A 20-byte hex address, left-padded with zeros to 32 bytes. *)
Definition hexAddressToBytes32 (a : string) : result bytes :=
  match a with
  | String "0" (String "x" digits) =>
      match hex_value 0 digits with
      | Some v => if (String.length digits <=? 64)%nat then Ok (Abi.word v)
                  else Err (InvalidArgument "address")
      | None => Err (InvalidArgument "address")
      end
  | _ => Err (InvalidArgument "address")
  end.

Definition uint (n : nat) (v : Z) : bytes := rev (le_split n v).

(** Type-3 options with one executor [lzReceive] entry. *)
Definition lzReceiveOption (gas value : Z) : result bytes :=
  Ok (uint 2 3 ++ uint 1 1
      ++ (if value =? 0 then uint 2 17 ++ uint 1 1 ++ uint 16 gas
          else uint 2 33 ++ uint 1 1 ++ uint 16 gas ++ uint 16 value)).

(** Type-3 options with one executor [lzCompose] entry. *)
Definition composeOption (index gas value : Z) : result bytes :=
  Ok (uint 2 3 ++ uint 1 1
      ++ (if value =? 0 then uint 2 19 ++ uint 1 3 ++ uint 2 index ++ uint 16 gas
          else uint 2 35 ++ uint 1 3 ++ uint 2 index ++ uint 16 gas ++ uint 16 value)).

Definition wallet : string := "0x1111111111111111111111111111111111111111".
Definition recipient : string := "0x2222222222222222222222222222222222222222".
Definition usdc_token : string := "0x833589fcd6edb6e08f4c7c32d4f71b54bda02913".

(** A vault that mints shares 1:1, tokens of six decimals, [hubQuote] for
    every [quoteSend] on the chain at [hubUrl] and [spokeQuote] on the
    other chains, an OFT whose [token()] is [token] and whose
    [approvalRequired()] is [probe], and transactions that go through. *)
Definition deployment (hubUrl : string) (hubQuote spokeQuote : result MessagingFee)
    (token : string) (probe : result bool) : Env :=
  {| walletOf := fun _ => Ok wallet;
     vault_asset := fun _ => Ok usdc_token;
     erc20_decimals := fun _ => Ok 6;
     vault_previewDeposit := fun _ a => Ok a;
     vault_previewRedeem := fun _ a => Ok a;
     oft_token := fun _ => Ok token;
     oft_approvalRequired := fun _ => probe;
     oft_quoteSend := fun c _ _ =>
       if String.eqb (provider c) hubUrl then hubQuote else spokeQuote;
     erc20_allowance_fault := fun _ _ _ => None;
     erc20_approve_fault := fun _ _ _ _ => None;
     oft_send_fault := fun _ _ _ _ _ _ => None;
     wait_fault := fun _ => None;
     addressToBytes32 := hexAddressToBytes32;
     addExecutorLzReceiveOption := lzReceiveOption;
     addExecutorComposeOption := composeOption;
     addExecutorLzComposeOption := composeOption |}.

(** The usual case: an ERC-20 asset that needs an approval, a quote of
    [fee2] wei on the hub and of [fee1] wei elsewhere. *)
Definition env (hubUrl : string) (fee1 fee2 : Z) : Env :=
  deployment hubUrl (Ok (mkFee fee2 0)) (Ok (mkFee fee1 0)) usdc_token (Ok true).

Definition ethereumUrl : string := "https://ethereum-rpc.publicnode.com".
Definition hubUrl : string := "https://arbitrum-sepolia.gateway.tenderly.co".
Definition katanaUrl : string := "https://rpc.katana.network".

(** Script 11: Ethereum is the hub; 1000 wei quoted there, 700 on Base. *)
Definition env11 : Env := env ethereumUrl 700 1000.

(** Scripts 1, 5 and 8: Arbitrum Sepolia is the hub. *)
Definition env1 : Env := env hubUrl 700 1000.

(** Part_001: Katana is the hub. *)
Definition env001 : Env := env katanaUrl 700 1000.

(** The hub's [quoteSend] is down. *)
Definition env1_hub_quote_down : Env :=
  deployment hubUrl (Err (CallException "quoteSend")) (Ok (mkFee 700 0))
    usdc_token (Ok true).

(** [approvalRequired()] is not answered. *)
Definition env1_probe_down : Env :=
  deployment hubUrl (Ok (mkFee 1000 0)) (Ok (mkFee 700 0)) usdc_token
    (Err (CallException "approvalRequired")).

(** The asset is the chain's native currency. *)
Definition env1_native : Env :=
  deployment hubUrl (Ok (mkFee 1000 0)) (Ok (mkFee 700 0)) Ethers.AddressZero
    (Ok true).

(** No allowance granted, nothing submitted. *)
Definition fresh : World := mkWorld (fun _ _ _ => 0) [].

(** [CONFIG] of script 11 as committed, with a key and a recipient
    filled in and the slippage setting of the run. *)
Definition config11 (bps : Z) : Script11.Config :=
  {| Script11.base_rpcUrl := Script11.base_rpcUrl Script11.CONFIG;
     Script11.base_eid := Script11.base_eid Script11.CONFIG;
     Script11.base_usdc := Script11.base_usdc Script11.CONFIG;
     Script11.base_stargatePoolUSDC := Script11.base_stargatePoolUSDC Script11.CONFIG;
     Script11.ethereum_rpcUrl := Script11.ethereum_rpcUrl Script11.CONFIG;
     Script11.ethereum_eid := Script11.ethereum_eid Script11.CONFIG;
     Script11.ethereum_composer := Script11.ethereum_composer Script11.CONFIG;
     Script11.ethereum_vault := Script11.ethereum_vault Script11.CONFIG;
     Script11.ethereum_shareOFT := Script11.ethereum_shareOFT Script11.CONFIG;
     Script11.katana_eid := Script11.katana_eid Script11.CONFIG;
     Script11.privateKey := "0xkey";
     Script11.recipientAddress := recipient;
     Script11.usdcAmount := Script11.usdcAmount Script11.CONFIG;
     Script11.composeGas := Script11.composeGas Script11.CONFIG;
     Script11.slippageBps := bps |}.

Definition testnet : list (string * ChainConfig) :=
  [ ("arbitrumSepolia", mkChain 40231 "https://arbitrum-sepolia.gateway.tenderly.co" "Arbitrum Sepolia");
    ("optimismSepolia", mkChain 40232 "https://optimism-sepolia.gateway.tenderly.co" "Optimism Sepolia");
    ("baseSepolia", mkChain 40245 "https://base-sepolia.gateway.tenderly.co" "Base Sepolia") ].

(** [CONFIG] of script 1 as committed, with the placeholders filled in. *)
Definition config1 (amount : string) : Script1.Config :=
  {| Script1.privateKey := "0xkey";
     Script1.chains := testnet;
     Script1.hub_vault := "0x3333333333333333333333333333333333333333";
     Script1.hub_composer := "0x4444444444444444444444444444444444444444";
     Script1.hub_assetOFT := "0x5555555555555555555555555555555555555555";
     Script1.hub_shareOFT := "0x6666666666666666666666666666666666666666";
     Script1.source_assetOFT := "0x7777777777777777777777777777777777777777";
     Script1.destination_shareOFT := "0x8888888888888888888888888888888888888888";
     Script1.srcChain := "baseSepolia";
     Script1.dstChain := "optimismSepolia";
     Script1.hubChain := "arbitrumSepolia";
     Script1.amount := amount;
     Script1.recipientAddress := recipient;
     Script1.minAmount := None;
     Script1.lzComposeGas := 395000;
     Script1.lzComposeValue := None |}.

(** [CONFIG] of unnamed/part_001 as committed, with a key and a recipient
    filled in. *)
Definition mainnet : list (string * ChainConfig) :=
  [ ("katanaMainnet", mkChain 30375 "https://rpc.katana.network" "Katana Mainnet");
    ("bscMainnet", mkChain 30102 "https://bsc-rpc.publicnode.com" "BSC Mainnet") ].

Definition config001 (amount : string) : Part001.Config :=
  {| Part001.privateKey := "0xkey";
     Part001.chains := mainnet;
     Part001.hub_vault := "0xbc772b1E1b6Ce1213673e6F49254511a521be911";
     Part001.hub_composer := "0x66Ba38939Cc561e3ab7a484BA60e1E8C4482d6aa";
     Part001.source_assetOFT := "0xDc25E63adF5Ed966B0939A31EB9fCeD727869215";
     Part001.srcChain := "bscMainnet";
     Part001.hubChain := "katanaMainnet";
     Part001.amount := amount;
     Part001.recipientAddress := recipient;
     Part001.minAmount := None;
     Part001.lzComposeGas := 175000 |}.

Definition config8 (amount : string) : Script8.Config :=
  {| Script8.privateKey := "0xkey";
     Script8.chains := testnet;
     Script8.hub_vault := "0x3333333333333333333333333333333333333333";
     Script8.hub_composer := "0x4444444444444444444444444444444444444444";
     Script8.source_shareOFT := "0x9999999999999999999999999999999999999999";
     Script8.srcChain := "baseSepolia";
     Script8.hubChain := "arbitrumSepolia";
     Script8.amount := amount;
     Script8.recipientAddress := recipient;
     Script8.minAmount := None;
     Script8.lzComposeGas := 175000 |}.

Definition config5 (amount : string) : Script5.Config :=
  {| Script5.privateKey := "0xkey";
     Script5.chains := testnet;
     Script5.hubAssetOFT := "0x5555555555555555555555555555555555555555";
     Script5.srcChain := "arbitrumSepolia";
     Script5.dstChain := "baseSepolia";
     Script5.amount := amount;
     Script5.recipientAddress := recipient;
     Script5.minAmount := None;
     Script5.lzReceiveGas := 100000 |}.

End Scenario.

(** ** Observations on a run *)

Definition approvals (w : World) : list tx := filter is_approve (submitted w).
Definition sends (w : World) : list tx := filter is_send (submitted w).

(** The value a [send] must carry: the quoted fee, plus the transferred
    amount when [token()] is the zero address. *)
Definition value_rule (env : Env) (t : tx) : Prop :=
  match t with
  | TxSend oft _ sp fee _ value =>
      oft_quoteSend env oft sp false = Ok fee /\
      exists tok,
        oft_token env oft = Ok tok /\
        value = if String.eqb tok Ethers.AddressZero
                then nativeFee fee + amountLD sp
                else nativeFee fee
  | TxApprove _ _ _ _ => True
  end.

(** The probe of the approval block that throws: [approvalRequired()]
    itself, or the allowance read behind it. *)
Definition probe_throws (env : Env) (oft : contract)
    (tok wallet spender : string) : Prop :=
  (exists e, oft_approvalRequired env oft = inl e) \/
  (oft_approvalRequired env oft = Ok true /\
   exists e, erc20_allowance_fault env (mkContract (provider oft) tok) wallet spender
             = Some e).

(** An environment whose transactions and allowance reads never fail. *)
Definition no_faults (env : Env) : Prop :=
  (forall c o s, erc20_allowance_fault env c o s = None) /\
  (forall c o s a, erc20_approve_fault env c o s a = None) /\
  (forall c x p f r v, oft_send_fault env c x p f r v = None) /\
  (forall t, wait_fault env t = None).

(** * Properties *)

Lemma Ok_inj {A} (a b : A) : Ok a = Ok b -> a = b.
Proof. unfold Ok. congruence. Qed.

(** ** The compose codec: layout and round trip *)

Section AbiLemmas.
Import Abi.

Lemma length_word v : length (word v) = 32%nat.
Proof. unfold word. rewrite length_rev. apply length_le_split. Qed.

Lemma unword_word v : 0 <= v < 2 ^ 256 -> unword (word v) = v.
Proof.
  intros Hv. unfold unword, word. rewrite rev_involutive, le_combine_split.
  change (Z.of_nat 32 * 8) with 256. apply Z.mod_small; exact Hv.
Qed.

Lemma length_zeros n : length (zeros n) = n.
Proof. apply repeat_length. Qed.

Lemma length_dyn b :
  length (dyn b) = (32 + length b + padding (length b))%nat.
Proof.
  unfold dyn. rewrite !length_app, length_word, length_zeros. lia.
Qed.

Lemma slice_skip (a r : bytes) off n k :
  length a = k -> (k <= off)%nat ->
  slice off n (a ++ r) = slice (off - k) n r.
Proof.
  intros Hk Hle. unfold slice. rewrite skipn_app, Hk.
  rewrite skipn_all2 by lia. reflexivity.
Qed.

Lemma slice_head (a r : bytes) n :
  length a = n -> slice 0 n (a ++ r) = a.
Proof.
  intros Hn. unfold slice. simpl skipn.
  rewrite firstn_app, Hn, Nat.sub_diag, firstn_O, app_nil_r.
  rewrite <- Hn. apply firstn_all.
Qed.

Lemma word_at_head v r :
  0 <= v < 2 ^ 256 -> word_at 0 (word v ++ r) = Some v.
Proof.
  intros Hv. unfold word_at.
  rewrite slice_head by apply length_word.
  rewrite length_word, Nat.eqb_refl, unword_word by exact Hv. reflexivity.
Qed.

Lemma word_at_skip (a r : bytes) off k :
  length a = k -> (k <= off)%nat ->
  word_at off (a ++ r) = word_at (off - k) r.
Proof.
  intros Hk Hle. unfold word_at. rewrite (slice_skip a r off 32 k Hk Hle).
  reflexivity.
Qed.

Lemma dyn_at_skip (a r : bytes) off k :
  length a = k -> (k <= off)%nat ->
  dyn_at off (a ++ r) = dyn_at (off - k) r.
Proof.
  intros Hk Hle. unfold dyn_at.
  rewrite (word_at_skip a r off k Hk Hle).
  destruct (word_at (off - k) r) as [len|]; [|reflexivity].
  rewrite (slice_skip a r (off + 32) (Z.to_nat len) k Hk) by lia.
  replace (off + 32 - k)%nat with (off - k + 32)%nat by lia. reflexivity.
Qed.

Lemma dyn_at_head b r :
  Z.of_nat (length b) < 2 ^ 256 -> dyn_at 0 (dyn b ++ r) = Some b.
Proof.
  intros Hb. unfold dyn_at, dyn. rewrite <- !app_assoc.
  rewrite word_at_head by lia.
  rewrite (slice_skip (word (Z.of_nat (length b))) _ (0 + 32) _ 32)
    by (try apply length_word; lia).
  rewrite Nat2Z.id. simpl Nat.sub.
  rewrite slice_head by reflexivity.
  rewrite Z.eqb_refl. reflexivity.
Qed.
End AbiLemmas.

Section CodecLemmas.
Import Abi ComposeCodec.

Lemma uint_ok_spec bits v : uint_ok bits v = true <-> 0 <= v < 2 ^ bits.
Proof. unfold uint_ok. rewrite andb_true_iff, Z.leb_le, Z.ltb_lt. tauto. Qed.

Lemma padding_lt n : (padding n < 32)%nat.
Proof. unfold padding. apply Nat.mod_upper_bound. discriminate. Qed.

Ltac skip_block :=
  first
    [ rewrite (word_at_skip (word _) _ _ 32) by (try apply length_word; lia)
    | rewrite (slice_skip (word _) _ _ _ 32) by (try apply length_word; lia) ];
  simpl Nat.sub.

Lemma encodeSendParam_split p :
  encodeSendParam p =
  head p ++ dyn (extraOptions p) ++ dyn (composeMsg p) ++ dyn (oftCmd p).
Proof. unfold encodeSendParam, head. cbv zeta. rewrite <- !app_assoc. reflexivity. Qed.

Lemma length_head p : length (to p) = 32%nat -> length (head p) = 224%nat.
Proof.
  intros Hto. unfold head. cbv zeta.
  rewrite !length_app, !length_word, Hto. reflexivity.
Qed.

Lemma head_slots p r :
  wellFormed p -> compact p ->
  let t := head p ++ r in
  word_at 0 t = Some (dstEid p) /\ slice 32 32 t = to p /\
  word_at 64 t = Some (amountLD p) /\ word_at 96 t = Some (minAmountLD p) /\
  word_at 128 t = Some 224 /\
  word_at 160 t = Some (Z.of_nat (224 + length (dyn (extraOptions p)))) /\
  word_at 192 t =
    Some (Z.of_nat (224 + length (dyn (extraOptions p))
                    + length (dyn (composeMsg p)))).
Proof.
  intros (Heid & Hto & Hamt & Hmin) (H1 & H2 & H3) t. subst t.
  pose proof (padding_lt (length (extraOptions p))) as P1.
  pose proof (padding_lt (length (composeMsg p))) as P2.
  assert (B64 : 2 ^ 64 + 2 ^ 64 + 1000 < 2 ^ 256) by (vm_compute; reflexivity).
  assert (B32 : 2 ^ 32 < 2 ^ 256) by (vm_compute; reflexivity).
  pose proof (length_dyn (extraOptions p)) as L1.
  pose proof (length_dyn (composeMsg p)) as L2.
  unfold head. cbv zeta. rewrite <- !app_assoc.
  repeat split.
  - apply word_at_head. lia.
  - skip_block. apply slice_head. exact Hto.
  - skip_block. rewrite (word_at_skip (to p) _ _ 32) by (try assumption; lia).
    simpl Nat.sub. apply word_at_head. lia.
  - skip_block. rewrite (word_at_skip (to p) _ _ 32) by (try assumption; lia).
    simpl Nat.sub. skip_block. apply word_at_head. lia.
  - skip_block. rewrite (word_at_skip (to p) _ _ 32) by (try assumption; lia).
    simpl Nat.sub. do 2 skip_block. apply word_at_head. lia.
  - skip_block. rewrite (word_at_skip (to p) _ _ 32) by (try assumption; lia).
    simpl Nat.sub. do 3 skip_block. apply word_at_head. lia.
  - skip_block. rewrite (word_at_skip (to p) _ _ 32) by (try assumption; lia).
    simpl Nat.sub. do 4 skip_block. apply word_at_head. lia.
Qed.

Lemma dyn_at_app (pre r b : bytes) off :
  length pre = off -> Z.of_nat (length b) < 2 ^ 256 ->
  dyn_at off (pre ++ dyn b ++ r) = Some b.
Proof.
  intros Hoff Hb.
  rewrite (dyn_at_skip pre _ off off Hoff) by lia.
  rewrite Nat.sub_diag. apply dyn_at_head. exact Hb.
Qed.

Lemma decode_encodeSendParam p :
  wellFormed p -> compact p ->
  decodeSendParam (encodeSendParam p) = Some p.
Proof.
  intros Hwf Hc.
  pose proof (head_slots p
    (dyn (extraOptions p) ++ dyn (composeMsg p) ++ dyn (oftCmd p)) Hwf Hc)
    as (S0 & S1 & S2 & S3 & S4 & S5 & S6).
  destruct Hwf as (Heid & Hto & Hamt & Hmin). destruct Hc as (H1 & H2 & H3).
  assert (B64 : 2 ^ 64 < 2 ^ 256) by (vm_compute; reflexivity).
  unfold decodeSendParam. rewrite encodeSendParam_split.
  rewrite S0, S2, S3, S4, S5, S6, S1. cbv zeta.
  rewrite !Nat2Z.id. change (Z.to_nat 224) with 224%nat.
  rewrite (dyn_at_app (head p)) by (try apply length_head; try assumption; lia).
  rewrite (app_assoc (head p) (dyn (extraOptions p))).
  rewrite (dyn_at_app (head p ++ dyn (extraOptions p)))
    by (try (rewrite length_app, length_head by assumption; reflexivity); lia).
  rewrite (app_assoc (head p ++ dyn (extraOptions p)) (dyn (composeMsg p))).
  rewrite <- (app_nil_r (dyn (oftCmd p))).
  rewrite (dyn_at_app ((head p ++ dyn (extraOptions p)) ++ dyn (composeMsg p)))
    by (try (rewrite !length_app, length_head by assumption; reflexivity); lia).
  rewrite Hto, Nat.eqb_refl.
  replace (uint_ok 32 (dstEid p)) with true
    by (symmetry; apply uint_ok_spec; exact Heid).
  simpl. destruct p; reflexivity.
Qed.

Theorem decode_encode p v payload :
  compact p -> encode p v = Ok payload -> decode payload = Some (p, v).
Proof.
  intros Hc. unfold encode.
  destruct (uint_ok 32 (dstEid p)) eqn:E1; [|discriminate].
  destruct (length (to p) =? 32)%nat eqn:E2; [|discriminate].
  destruct (uint_ok 256 (amountLD p)) eqn:E3; [|discriminate].
  destruct (uint_ok 256 (minAmountLD p)) eqn:E4; [|discriminate].
  destruct (uint_ok 256 v) eqn:E5; [|discriminate].
  cbn [negb]. intros H. apply Ok_inj in H. subst payload.
  apply uint_ok_spec in E1, E3, E4, E5. apply Nat.eqb_eq in E2.
  unfold decode.
  rewrite word_at_head by (split; [lia | vm_compute; reflexivity]).
  rewrite (word_at_skip (word 64) _ _ 32) by (try apply length_word; lia).
  simpl Nat.sub. rewrite word_at_head by exact E5.
  change (Z.to_nat 64) with 64%nat.
  rewrite (skipn_app 64 (word 64)), length_word.
  rewrite skipn_all2 by (rewrite length_word; lia).
  simpl Nat.sub. rewrite (skipn_app 32 (word v)), length_word.
  rewrite skipn_all2 by (rewrite length_word; lia).
  simpl. rewrite decode_encodeSendParam; [reflexivity | | exact Hc].
  repeat split; try assumption; lia.
Qed.

Lemma encode_nonempty p v payload :
  encode p v = Ok payload -> payload <> hex_empty.
Proof.
  unfold encode.
  repeat match goal with
         | |- context [if ?c then _ else _] => destruct c; [discriminate|]
         end.
  intros H. apply Ok_inj in H. subst payload. intros Hnil.
  apply (f_equal (@length byte)) in Hnil.
  rewrite length_app, length_word in Hnil. discriminate.
Qed.
End CodecLemmas.

(** ** What a successful plan contains *)

(** Peel one [let?] off a successful computation. *)
Ltac peel H :=
  match type of H with
  | rbind (throw_if ?c ?e) _ = inr _ =>
      let E := fresh "Hchk" in
      destruct c eqn:E; cbn [rbind throw_if Err Ok] in H; [discriminate H|]
  | rbind ?r _ = inr _ =>
      let E := fresh "Hstep" in
      let x := fresh "x" in
      destruct r as [?|x] eqn:E; cbn [rbind] in H; [discriminate H|]
  end.

Section Script11Facts.
Import Ethers Script11.
Variables (env : Env) (CONFIG : Config) (p : Plan).
Hypothesis Hplan : plan env CONFIG = Ok p.

Lemma plan11_shape :
  let vault := mkContract (ethereum_rpcUrl CONFIG) (ethereum_vault CONFIG) in
  let shareOFT := mkContract (ethereum_rpcUrl CONFIG) (ethereum_shareOFT CONFIG) in
  let stargatePool :=
    mkContract (base_rpcUrl CONFIG) (base_stargatePoolUSDC CONFIG) in
  exists recipient32 receiveOptions composeOptions q2 q1,
    parseUnits (usdcAmount CONFIG) 6 = Ok (usdcAmountUnits p) /\
    vault_previewDeposit env vault (usdcAmountUnits p) = Ok (expectedShares p) /\
    addressToBytes32 env (recipientAddress CONFIG) = Ok recipient32 /\
    addExecutorLzReceiveOption env 100000 0 = Ok receiveOptions /\
    secondHopSendParam p =
      {| dstEid := katana_eid CONFIG; to := recipient32;
         amountLD := expectedShares p;
         minAmountLD := calculateMinAmount (expectedShares p) (slippageBps CONFIG);
         extraOptions := receiveOptions;
         composeMsg := hex_empty; oftCmd := hex_empty |} /\
    oft_quoteSend env shareOFT (secondHopSendParam p) false = Ok q2 /\
    secondHopFee p = nativeFee q2 /\
    composeValue p = withBuffer (secondHopFee p) /\
    Z.abs (composeValue p) <= MAX_SAFE_INTEGER /\
    addExecutorComposeOption env 0 (composeGas CONFIG) (composeValue p) = Ok composeOptions /\
    firstHopSendParam p =
      {| dstEid := ethereum_eid CONFIG;
         to := to (firstHopSendParam p);
         amountLD := usdcAmountUnits p;
         minAmountLD := calculateMinAmount (usdcAmountUnits p) (slippageBps CONFIG);
         extraOptions := composeOptions;
         composeMsg := composeMsg (firstHopSendParam p);
         oftCmd := hex_empty |} /\
    addressToBytes32 env (ethereum_composer CONFIG) = Ok (to (firstHopSendParam p)) /\
    ComposeCodec.encode (secondHopSendParam p) (composeValue p)
      = Ok (composeMsg (firstHopSendParam p)) /\
    oft_quoteSend env stargatePool (firstHopSendParam p) false = Ok q1 /\
    firstHopFee p = nativeFee q1 /\
    walletOf env (privateKey CONFIG) = Ok (baseWallet p).
Proof.
  cbv zeta.
  pose proof Hplan as H. unfold plan in H. unfold Ok in H.
  cbv zeta in H.
  repeat peel H.
  apply Ok_inj in H. subst p. cbn.
  unfold toNumber in Hstep7.
  destruct (Z.abs (withBuffer (nativeFee x5)) <=? MAX_SAFE_INTEGER) eqn:Hsafe;
    [apply Ok_inj in Hstep7; subst x7 | discriminate Hstep7].
  apply Z.leb_le in Hsafe.
  exists x3, x4, x8, x5, x10. unfold Ok. repeat split; assumption.
Qed.
End Script11Facts.

(** ** Running the transaction steps *)

Section Runs.
Variable env : Env.

Lemma sends_submit_send w c x p f r v :
  sends (submit (TxSend c x p f r v) w) = sends w ++ [TxSend c x p f r v].
Proof. unfold sends, submit. cbn. rewrite filter_app. reflexivity. Qed.

Lemma sends_submit_approve w c o s a :
  sends (submit (TxApprove c o s a) w) = sends w.
Proof. unfold sends, submit. cbn. rewrite filter_app. cbn. apply app_nil_r. Qed.

Lemma approvals_submit_approve w c o s a :
  approvals (submit (TxApprove c o s a) w) = approvals w ++ [TxApprove c o s a].
Proof. unfold approvals, submit. cbn. rewrite filter_app. reflexivity. Qed.

Lemma approvals_submit_send w c x p f r v :
  approvals (submit (TxSend c x p f r v) w) = approvals w.
Proof. unfold approvals, submit. cbn. rewrite filter_app. cbn. apply app_nil_r. Qed.

Lemma submitted_mined t w : submitted (mined t w) = submitted w.
Proof. destruct t; reflexivity. Qed.

Lemma sends_mined t w : sends (mined t w) = sends w.
Proof. unfold sends. rewrite submitted_mined. reflexivity. Qed.

Lemma approvals_mined t w : approvals (mined t w) = approvals w.
Proof. unfold approvals. rewrite submitted_mined. reflexivity. Qed.

(** The approval block never throws and never submits a [send]. *)
Lemma handleApproval_total isNative oft tok wallet spender amt w :
  exists w',
    Common.handleApproval env isNative oft tok wallet spender amt w = (w', Ok tt)
    /\ sends w' = sends w.
Proof.
  unfold Common.handleApproval.
  destruct isNative; cbn [negb]; [exists w; split; reflexivity|].
  unfold try_catch, bind, lift, ret, allowance, approve, wait, Ok, Err.
  destruct (oft_approvalRequired env oft) as [e|[|]];
    try (exists w; split; reflexivity).
  repeat (cbv beta iota zeta;
          match goal with
          | |- context [erc20_allowance_fault env ?c ?o ?s] =>
              destruct (erc20_allowance_fault env c o s)
          | |- context [erc20_approve_fault env ?c ?o ?s ?a] =>
              destruct (erc20_approve_fault env c o s a)
          | |- context [wait_fault env ?t] => destruct (wait_fault env t)
          | |- context [?a <? ?b] => destruct (a <? b)
          end);
    cbv beta iota zeta;
    (eexists; split; [reflexivity|]);
    rewrite ?sends_mined, ?sends_submit_approve; reflexivity.
Qed.

(** Quote, then send with the value the script computes. *)
Lemma quoteAndSend_ok oft wallet sp isNative amt msgFee w :
  oft_quoteSend env oft sp false = Ok msgFee ->
  no_faults env ->
  Common.quoteAndSend env oft wallet sp isNative amt w =
    (submit (TxSend oft wallet sp msgFee wallet
               (Common.txValue isNative msgFee amt)) w, Ok tt).
Proof.
  intros Hq (_ & _ & Hsend & Hwait).
  unfold Common.quoteAndSend, bind, lift, send, wait.
  rewrite Hq. unfold Ok. cbv zeta. rewrite Hsend, Hwait. reflexivity.
Qed.

(** A failing outer quote is the error of the whole step, and nothing is
    sent. *)
Lemma quoteAndSend_quote_fails oft wallet sp isNative amt e w :
  oft_quoteSend env oft sp false = inl e ->
  Common.quoteAndSend env oft wallet sp isNative amt w = (w, inl e).
Proof.
  intros Hq. unfold Common.quoteAndSend, bind, lift. rewrite Hq. reflexivity.
Qed.
End Runs.

Section Script1Facts.
Import Ethers Script1.
Variables (env : Env) (CONFIG : Config) (p : Plan).
Hypothesis Hplan : plan env CONFIG = Ok p.

Lemma plan1_shape :
  exists srcc hubc dstc assetAddress assetDecimals shareDecimals
         recipient32 receiveOptions composeOptions,
    chain_lookup (srcChain CONFIG) (chains CONFIG) = Some srcc /\
    chain_lookup (hubChain CONFIG) (chains CONFIG) = Some hubc /\
    chain_lookup (dstChain CONFIG) (chains CONFIG) = Some dstc /\
    let vault := mkContract (rpcUrl hubc) (hub_vault CONFIG) in
    let shareOFT := mkContract (rpcUrl hubc) (hub_shareOFT CONFIG) in
    walletOf env (privateKey CONFIG) = Ok (srcWallet p) /\
    vault_asset env vault = Ok assetAddress /\
    erc20_decimals env (mkContract (rpcUrl hubc) assetAddress) = Ok assetDecimals /\
    erc20_decimals env vault = Ok shareDecimals /\
    parseUnits (amount CONFIG) assetDecimals = Ok (inputAmountUnits p) /\
    Common.previewOrOneToOne
      (vault_previewDeposit env vault (inputAmountUnits p)) (inputAmountUnits p)
      = Ok (amountLD (secondHopSendParam p)) /\
    Common.minAmountWithSlippage (minAmount CONFIG) shareDecimals
      (amountLD (secondHopSendParam p)) = Ok (minAmountLD (secondHopSendParam p)) /\
    addressToBytes32 env (recipientAddress CONFIG) = Ok recipient32 /\
    addExecutorLzReceiveOption env 100000 0 = Ok receiveOptions /\
    secondHopSendParam p =
      {| dstEid := eid dstc; to := recipient32;
         amountLD := amountLD (secondHopSendParam p);
         minAmountLD := minAmountLD (secondHopSendParam p);
         extraOptions := receiveOptions;
         composeMsg := hex_empty; oftCmd := hex_empty |} /\
    composeValue p =
      quoteSecondHop env CONFIG shareOFT (eid dstc) (eid hubc) (secondHopSendParam p) /\
    ComposeCodec.encode (secondHopSendParam p) (composeValue p)
      = Ok (composeMsg (sendParam p)) /\
    addExecutorLzComposeOption env 0 (lzComposeGas CONFIG) (composeValue p)
      = Ok composeOptions /\
    Common.firstHopMinAmount (minAmount CONFIG) (amount CONFIG) assetDecimals
      = Ok (minAmountLD (sendParam p)) /\
    addressToBytes32 env (hub_composer CONFIG) = Ok (to (sendParam p)) /\
    sendParam p =
      {| dstEid := eid hubc; to := to (sendParam p);
         amountLD := inputAmountUnits p;
         minAmountLD := minAmountLD (sendParam p);
         extraOptions := composeOptions;
         composeMsg := composeMsg (sendParam p);
         oftCmd := hex_empty |} /\
    srcOFT p = mkContract (rpcUrl srcc) (source_assetOFT CONFIG) /\
    oft_token env (srcOFT p) = Ok (underlyingToken p) /\
    isNativeToken p = String.eqb (underlyingToken p) AddressZero.
Proof.
  pose proof Hplan as H. unfold plan, defined in H. unfold Ok in H.
  cbv zeta in H.
  repeat peel H.
  apply Ok_inj in H. subst p. cbn.
  destruct (chain_lookup (srcChain CONFIG) (chains CONFIG)) as [srcc|];
    [apply Ok_inj in Hstep; subst x | discriminate Hstep].
  destruct (chain_lookup (hubChain CONFIG) (chains CONFIG)) as [hubc|];
    [apply Ok_inj in Hstep0; subst x0 | discriminate Hstep0].
  destruct (chain_lookup (dstChain CONFIG) (chains CONFIG)) as [dstc|];
    [apply Ok_inj in Hstep1; subst x1 | discriminate Hstep1].
  exists srcc, hubc, dstc, x3, x4, x5, x9, x10, x12.
  unfold Ok. repeat split; assumption.
Qed.

(** [main] is the approval block followed by quote-and-send. *)
Lemma main1_run w :
  exists w1,
    sends w1 = sends w /\
    main env CONFIG w =
      Common.quoteAndSend env (srcOFT p) (srcWallet p) (sendParam p)
        (isNativeToken p) (inputAmountUnits p) w1.
Proof.
  destruct (handleApproval_total env (isNativeToken p) (srcOFT p)
              (underlyingToken p) (srcWallet p) (source_assetOFT CONFIG)
              (inputAmountUnits p) w) as (w1 & Hrun & Hsends).
  exists w1. split; [exact Hsends|].
  unfold main, bind at 1, lift. rewrite Hplan. unfold Ok.
  unfold bind at 1. fold (@Ok unit tt) in Hrun. unfold Ok in Hrun.
  rewrite Hrun. reflexivity.
Qed.
End Script1Facts.

(** ** The approval step *)

Section ApprovalFacts.
Variable env : Env.
Hypothesis Hnf : no_faults env.

Lemma allowances_mined_same token owner spender amount w :
  allowances (mined (TxApprove token owner spender amount) w) token owner spender
  = amount.
Proof.
  cbn. unfold contract_eqb. rewrite !String.eqb_refl. reflexivity.
Qed.

(** One pass of script 11's step 6. *)
Lemma approveUSDC_run CONFIG wallet amount w :
  let usdc := mkContract (Script11.base_rpcUrl CONFIG) (Script11.base_usdc CONFIG) in
  let spender := Script11.base_stargatePoolUSDC CONFIG in
  Script11.approveUSDC env CONFIG wallet amount w =
    if allowances w usdc wallet spender <? amount
    then (mined (TxApprove usdc wallet spender Ethers.MaxUint256)
            (submit (TxApprove usdc wallet spender Ethers.MaxUint256) w), Ok tt)
    else (w, Ok tt).
Proof.
  destruct Hnf as (Hallow & Happrove & _ & Hwait). cbv zeta.
  unfold Script11.approveUSDC, bind, allowance, approve, wait, ret.
  rewrite Hallow. unfold Ok.
  destruct (_ <? amount); [|reflexivity].
  rewrite Happrove. cbv zeta. rewrite Hwait. reflexivity.
Qed.

(** One pass of the approval block of scripts 1, 5 and part_001, for an
    ERC-20 asset. *)
Lemma handleApproval_run oft tok wallet spender amount required w :
  oft_approvalRequired env oft = Ok required ->
  let erc20 := mkContract (provider oft) tok in
  Common.handleApproval env false oft tok wallet spender amount w =
    if required && (allowances w erc20 wallet spender <? amount)
    then (mined (TxApprove erc20 wallet spender amount)
            (submit (TxApprove erc20 wallet spender amount) w), Ok tt)
    else (w, Ok tt).
Proof.
  intros Hreq. destruct Hnf as (Hallow & Happrove & _ & Hwait). cbv zeta.
  unfold Common.handleApproval, try_catch, bind, lift, allowance, approve, wait, ret.
  cbn [negb]. rewrite Hreq. unfold Ok.
  destruct required; cbn [andb]; [|reflexivity].
  rewrite Hallow.
  destruct (_ <? amount); [|reflexivity].
  rewrite Happrove. cbv zeta. rewrite Hwait. reflexivity.
Qed.
End ApprovalFacts.

(** C9. The approval step submits an approval only when the allowance read
    is strictly below the required amount, and awaits it; run again on a
    world whose allowance is unchanged or larger, it submits nothing.  So
    two passes submit one approval when the initial allowance was short and
    none when it sufficed.  Script 11 (step 6) approves [MaxUint256];
    script 1 approves the exact amount, once [approvalRequired()] says
    so. *)
Theorem C9_approval_idempotent :
  (forall env CONFIG wallet amount w,
      no_faults env -> amount <= Ethers.MaxUint256 ->
      let usdc := mkContract (Script11.base_rpcUrl CONFIG) (Script11.base_usdc CONFIG) in
      let spender := Script11.base_stargatePoolUSDC CONFIG in
      let step := Script11.approveUSDC env CONFIG wallet amount in
      exists w1,
        step w = (w1, Ok tt) /\
        approvals w1 =
          approvals w ++
            (if allowances w usdc wallet spender <? amount
             then [TxApprove usdc wallet spender Ethers.MaxUint256] else []) /\
        sends w1 = sends w /\
        amount <= allowances w1 usdc wallet spender /\
        forall w2,
          allowances w1 usdc wallet spender <= allowances w2 usdc wallet spender ->
          step w2 = (w2, Ok tt))
  /\
  (forall env oft tok wallet spender amount w,
      no_faults env -> oft_approvalRequired env oft = Ok true ->
      let erc20 := mkContract (provider oft) tok in
      let step := Common.handleApproval env false oft tok wallet spender amount in
      exists w1,
        step w = (w1, Ok tt) /\
        approvals w1 =
          approvals w ++
            (if allowances w erc20 wallet spender <? amount
             then [TxApprove erc20 wallet spender amount] else []) /\
        sends w1 = sends w /\
        amount <= allowances w1 erc20 wallet spender /\
        forall w2,
          allowances w1 erc20 wallet spender <= allowances w2 erc20 wallet spender ->
          step w2 = (w2, Ok tt)).
Proof.
  split.
  - intros env CONFIG wallet amount w Hnf Hmax usdc spender step.
    subst step. rewrite (approveUSDC_run env Hnf).
    fold usdc spender.
    destruct (allowances w usdc wallet spender <? amount) eqn:Hlt.
    + eexists. split; [reflexivity|].
      rewrite approvals_mined, approvals_submit_approve, sends_mined,
        sends_submit_approve, allowances_mined_same.
      repeat split; try assumption.
      intros w2 Hge. rewrite (approveUSDC_run env Hnf). fold usdc spender.
      replace (allowances w2 usdc wallet spender <? amount) with false;
        [reflexivity | symmetry; apply Z.ltb_ge; lia].
    + apply Z.ltb_ge in Hlt. exists w. rewrite app_nil_r.
      repeat split; try assumption.
      intros w2 Hge. rewrite (approveUSDC_run env Hnf). fold usdc spender.
      replace (allowances w2 usdc wallet spender <? amount) with false;
        [reflexivity | symmetry; apply Z.ltb_ge; lia].
  - intros env oft tok wallet spender amount w Hnf Hreq erc20 step.
    subst step. rewrite (handleApproval_run env Hnf _ _ _ _ _ true) by exact Hreq.
    fold erc20. cbn [andb].
    destruct (allowances w erc20 wallet spender <? amount) eqn:Hlt.
    + eexists. split; [reflexivity|].
      rewrite approvals_mined, approvals_submit_approve, sends_mined,
        sends_submit_approve, allowances_mined_same.
      repeat split; try lia.
      intros w2 Hge.
      rewrite (handleApproval_run env Hnf _ _ _ _ _ true) by exact Hreq.
      fold erc20. cbn [andb].
      replace (allowances w2 erc20 wallet spender <? amount) with false;
        [reflexivity | symmetry; apply Z.ltb_ge; lia].
    + apply Z.ltb_ge in Hlt. exists w. rewrite app_nil_r.
      repeat split; try assumption.
      intros w2 Hge.
      rewrite (handleApproval_run env Hnf _ _ _ _ _ true) by exact Hreq.
      fold erc20. cbn [andb].
      replace (allowances w2 erc20 wallet spender <? amount) with false;
        [reflexivity | symmetry; apply Z.ltb_ge; lia].
Qed.

Section Part001Facts.
Import Ethers Part001.
Variables (env : Env) (CONFIG : Config) (p : Plan).
Hypothesis Hplan : plan env CONFIG = Ok p.

Lemma plan001_shape :
  exists srcc hubc assetAddress assetDecimals shareDecimals
         recipient32 receiveOptions composeOptions,
    chain_lookup (srcChain CONFIG) (chains CONFIG) = Some srcc /\
    chain_lookup (hubChain CONFIG) (chains CONFIG) = Some hubc /\
    let vault := mkContract (rpcUrl hubc) (hub_vault CONFIG) in
    hubEid p = eid hubc /\
    vault_asset env vault = Ok assetAddress /\
    erc20_decimals env (mkContract (rpcUrl hubc) assetAddress) = Ok assetDecimals /\
    erc20_decimals env vault = Ok shareDecimals /\
    parseUnits (amount CONFIG) assetDecimals = Ok (inputAmountUnits p) /\
    addressToBytes32 env (recipientAddress CONFIG) = Ok recipient32 /\
    addExecutorLzReceiveOption env 100000 0 = Ok receiveOptions /\
    secondHopSendParam p =
      {| dstEid := eid hubc; to := recipient32;
         amountLD := amountLD (secondHopSendParam p);
         minAmountLD := minAmountLD (secondHopSendParam p);
         extraOptions := receiveOptions;
         composeMsg := hex_empty; oftCmd := hex_empty |} /\
    ComposeCodec.encode (secondHopSendParam p) 0 = Ok (composeMsg (sendParam p)) /\
    addExecutorComposeOption env 0 (lzComposeGas CONFIG) 0 = Ok composeOptions /\
    Common.firstHopMinAmount (minAmount CONFIG) (amount CONFIG) assetDecimals
      = Ok (minAmountLD (sendParam p)) /\
    addressToBytes32 env (hub_composer CONFIG) = Ok (to (sendParam p)) /\
    sendParam p =
      {| dstEid := eid hubc; to := to (sendParam p);
         amountLD := inputAmountUnits p;
         minAmountLD := minAmountLD (sendParam p);
         extraOptions := composeOptions;
         composeMsg := composeMsg (sendParam p);
         oftCmd := hex_empty |} /\
    srcOFT p = mkContract (rpcUrl srcc) (source_assetOFT CONFIG) /\
    oft_token env (srcOFT p) = Ok (underlyingToken p) /\
    isNativeToken p = String.eqb (underlyingToken p) AddressZero.
Proof.
  pose proof Hplan as H. unfold plan, defined in H. unfold Ok in H.
  cbv zeta in H.
  repeat peel H.
  apply Ok_inj in H. subst p. cbn.
  destruct (chain_lookup (srcChain CONFIG) (chains CONFIG)) as [srcc|];
    [apply Ok_inj in Hstep; subst x | discriminate Hstep].
  destruct (chain_lookup (hubChain CONFIG) (chains CONFIG)) as [hubc|];
    [apply Ok_inj in Hstep0; subst x0 | discriminate Hstep0].
  exists srcc, hubc, x2, x3, x4, x8, x9, x11.
  unfold Ok. repeat split; assumption.
Qed.

Lemma main001_run w :
  exists w1,
    sends w1 = sends w /\
    main env CONFIG w =
      Common.quoteAndSend env (srcOFT p) (srcWallet p) (sendParam p)
        (isNativeToken p) (inputAmountUnits p) w1.
Proof.
  destruct (handleApproval_total env (isNativeToken p) (srcOFT p)
              (underlyingToken p) (srcWallet p) (source_assetOFT CONFIG)
              (inputAmountUnits p) w) as (w1 & Hrun & Hsends).
  exists w1. split; [exact Hsends|].
  unfold main, bind at 1, lift. rewrite Hplan. unfold Ok.
  unfold bind at 1. unfold Ok in Hrun.
  rewrite Hrun. reflexivity.
Qed.
End Part001Facts.

Section Script8Facts.
Import Ethers Script8.
Variables (env : Env) (CONFIG : Config) (p : Plan).
Hypothesis Hplan : plan env CONFIG = Ok p.

Lemma plan8_shape :
  exists hubc recipient32 receiveOptions composeOptions,
    chain_lookup (hubChain CONFIG) (chains CONFIG) = Some hubc /\
    hubEid p = eid hubc /\
    addressToBytes32 env (recipientAddress CONFIG) = Ok recipient32 /\
    secondHopSendParam p =
      {| dstEid := eid hubc; to := recipient32;
         amountLD := amountLD (secondHopSendParam p);
         minAmountLD := minAmountLD (secondHopSendParam p);
         extraOptions := receiveOptions;
         composeMsg := hex_empty; oftCmd := hex_empty |} /\
    ComposeCodec.encode (secondHopSendParam p) 0 = Ok (composeMsg (sendParam p)) /\
    addressToBytes32 env (hub_composer CONFIG) = Ok (to (sendParam p)) /\
    sendParam p =
      {| dstEid := eid hubc; to := to (sendParam p);
         amountLD := inputAmountUnits p;
         minAmountLD := minAmountLD (sendParam p);
         extraOptions := composeOptions;
         composeMsg := composeMsg (sendParam p);
         oftCmd := hex_empty |}.
Proof.
  pose proof Hplan as H. unfold plan, defined in H. unfold Ok in H.
  cbv zeta in H.
  repeat peel H.
  apply Ok_inj in H. subst p. cbn.
  destruct (chain_lookup (hubChain CONFIG) (chains CONFIG)) as [hubc|];
    [apply Ok_inj in Hstep0; subst x0 | discriminate Hstep0].
  exists hubc, x8, x9, x11.
  unfold Ok. repeat split; assumption.
Qed.
End Script8Facts.

Section Script5Facts.
Import Ethers Script5.
Variables (env : Env) (CONFIG : Config) (s : Setup).
Hypothesis Hsetup : setup env CONFIG = Ok s.

Lemma setup5_shape :
  oft_token env (oft s) = Ok (underlyingToken s) /\
  isNativeToken s = String.eqb (underlyingToken s) AddressZero /\
  parseUnits (amount CONFIG) (decimals s) = Ok (amountUnits s).
Proof.
  pose proof Hsetup as H. unfold setup, defined in H. unfold Ok in H.
  cbv zeta in H.
  repeat peel H.
  apply Ok_inj in H. subst s. cbn.
  unfold Ok. repeat split; assumption.
Qed.

Lemma buildSendParam5_shape sp :
  buildSendParam env CONFIG s = Ok sp ->
  addressToBytes32 env (recipientAddress CONFIG) = Ok (to sp) /\
  dstEid sp = dstChainEid s /\ amountLD sp = amountUnits s /\
  composeMsg sp = hex_empty /\ oftCmd sp = hex_empty.
Proof.
  intros H. unfold buildSendParam in H. unfold Ok in H. cbv zeta in H.
  repeat peel H.
  apply Ok_inj in H. subst sp. cbn. unfold Ok. repeat split; assumption.
Qed.

Lemma main5_run w :
  exists w1,
    sends w1 = sends w /\
    main env CONFIG w =
      (sendParam <- lift (buildSendParam env CONFIG s) ;;
       Common.quoteAndSend env (oft s) (wallet s) sendParam (isNativeToken s)
         (amountUnits s)) w1.
Proof.
  destruct (handleApproval_total env (isNativeToken s) (oft s)
              (underlyingToken s) (wallet s) (hubAssetOFT CONFIG)
              (amountUnits s) w) as (w1 & Hrun & Hsends).
  exists w1. split; [exact Hsends|].
  unfold main, bind at 1, lift. rewrite Hsetup. unfold Ok.
  unfold bind at 1. unfold Ok in Hrun.
  rewrite Hrun. reflexivity.
Qed.
End Script5Facts.

(** ** Values, probes and hops *)

(** What quote-and-send can leave behind: nothing, or exactly the one
    [send] carrying the quoted fee and the value computed from it. *)
Lemma quoteAndSend_sends env oft wallet sp isNative amt w w' r :
  Common.quoteAndSend env oft wallet sp isNative amt w = (w', r) ->
  sends w' = sends w \/
  exists msgFee,
    oft_quoteSend env oft sp false = Ok msgFee /\
    sends w' = sends w ++
      [TxSend oft wallet sp msgFee wallet (Common.txValue isNative msgFee amt)].
Proof.
  unfold Common.quoteAndSend, bind, lift, send, wait.
  destruct (oft_quoteSend env oft sp false) as [e|msgFee].
  - intros H. injection H as <- _. left. reflexivity.
  - cbv zeta.
    destruct (oft_send_fault env oft wallet sp msgFee wallet _) as [e|].
    + intros H. injection H as <- _. left. reflexivity.
    + unfold Ok. cbv beta iota.
      destruct (wait_fault env _) as [e|]; intros H; injection H as <- _;
        right; exists msgFee; (split; [reflexivity|]);
        rewrite ?sends_mined; apply sends_submit_send.
Qed.

(** C8. In scripts 1, 5 and part_001, whatever the run does, every [send]
    it submits carries the native fee quoted for that very [SendParam],
    and that fee plus the transferred amount ([amountLD]) exactly when the
    OFT's [token()] is the zero address. *)
Theorem C8_value_attached :
  (forall env CONFIG w w' r t,
      Script1.main env CONFIG w = (w', r) ->
      In t (sends w') -> In t (sends w) \/ value_rule env t)
  /\
  (forall env CONFIG w w' r t,
      Script5.main env CONFIG w = (w', r) ->
      In t (sends w') -> In t (sends w) \/ value_rule env t)
  /\
  (forall env CONFIG w w' r t,
      Part001.main env CONFIG w = (w', r) ->
      In t (sends w') -> In t (sends w) \/ value_rule env t).
Proof.
  repeat split.
  - intros env CONFIG w w' r t Hrun Hin.
    destruct (Script1.plan env CONFIG) as [e|p] eqn:Hplan.
    + unfold Script1.main, bind, lift in Hrun. rewrite Hplan in Hrun.
      injection Hrun as <- _. left. exact Hin.
    + destruct (main1_run env CONFIG p Hplan w) as (w1 & Hs & Hmain).
      rewrite Hmain in Hrun.
      destruct (plan1_shape env CONFIG p Hplan)
        as (srcc & hubc & dstc & aa & ad & sd & r32 & ro & co & F).
      cbv zeta in F. decompose [and] F. clear F.
      apply quoteAndSend_sends in Hrun.
      destruct Hrun as [Hsame | (fee & Hq & Hsent)].
      * left. rewrite <- Hs, <- Hsame. exact Hin.
      * rewrite Hsent, Hs in Hin. apply in_app_or in Hin.
        destruct Hin as [Hin | [<- | []]]; [left; exact Hin | right].
        cbn. split; [exact Hq|]. exists (Script1.underlyingToken p).
        split; [assumption|].
        match goal with
        | Hsp : Script1.sendParam p = _ |- _ => rewrite Hsp; cbn [amountLD]
        end.
        match goal with
        | Hn : Script1.isNativeToken p = _ |- _ => rewrite <- Hn
        end.
        reflexivity.
  - intros env CONFIG w w' r t Hrun Hin.
    destruct (Script5.setup env CONFIG) as [e|s] eqn:Hsetup.
    + unfold Script5.main, bind, lift in Hrun. rewrite Hsetup in Hrun.
      injection Hrun as <- _. left. exact Hin.
    + destruct (main5_run env CONFIG s Hsetup w) as (w1 & Hs & Hmain).
      rewrite Hmain in Hrun.
      destruct (setup5_shape env CONFIG s Hsetup) as (Htok & Hnat & _).
      unfold bind at 1, lift in Hrun.
      destruct (Script5.buildSendParam env CONFIG s) as [e|sp] eqn:Hsp.
      * injection Hrun as <- _. left. rewrite <- Hs. exact Hin.
      * destruct (buildSendParam5_shape env CONFIG s sp Hsp)
          as (_ & _ & Hamt & _).
        apply quoteAndSend_sends in Hrun.
        destruct Hrun as [Hsame | (fee & Hq & Hsent)].
        -- left. rewrite <- Hs, <- Hsame. exact Hin.
        -- rewrite Hsent, Hs in Hin. apply in_app_or in Hin.
           destruct Hin as [Hin | [<- | []]]; [left; exact Hin | right].
           cbn. split; [exact Hq|]. exists (Script5.underlyingToken s).
           split; [assumption|]. rewrite Hamt, <- Hnat. reflexivity.
  - intros env CONFIG w w' r t Hrun Hin.
    destruct (Part001.plan env CONFIG) as [e|p] eqn:Hplan.
    + unfold Part001.main, bind, lift in Hrun. rewrite Hplan in Hrun.
      injection Hrun as <- _. left. exact Hin.
    + destruct (main001_run env CONFIG p Hplan w) as (w1 & Hs & Hmain).
      rewrite Hmain in Hrun.
      destruct (plan001_shape env CONFIG p Hplan)
        as (srcc & hubc & aa & ad & sd & r32 & ro & co & F).
      cbv zeta in F. decompose [and] F. clear F.
      apply quoteAndSend_sends in Hrun.
      destruct Hrun as [Hsame | (fee & Hq & Hsent)].
      * left. rewrite <- Hs, <- Hsame. exact Hin.
      * rewrite Hsent, Hs in Hin. apply in_app_or in Hin.
        destruct Hin as [Hin | [<- | []]]; [left; exact Hin | right].
        cbn. split; [exact Hq|]. exists (Part001.underlyingToken p).
        split; [assumption|].
        match goal with
        | Hsp : Part001.sendParam p = _ |- _ => rewrite Hsp; cbn [amountLD]
        end.
        match goal with
        | Hn : Part001.isNativeToken p = _ |- _ => rewrite <- Hn
        end.
        reflexivity.
Qed.


Lemma encode_accepts p v payload :
  ComposeCodec.encode p v = Ok payload ->
  ComposeCodec.wellFormed p /\ 0 <= v < 2 ^ 256.
Proof.
  unfold ComposeCodec.encode.
  destruct (ComposeCodec.uint_ok 32 (dstEid p)) eqn:E1; [|discriminate].
  destruct (length (to p) =? 32)%nat eqn:E2; [|discriminate].
  destruct (ComposeCodec.uint_ok 256 (amountLD p)) eqn:E3; [|discriminate].
  destruct (ComposeCodec.uint_ok 256 (minAmountLD p)) eqn:E4; [|discriminate].
  destruct (ComposeCodec.uint_ok 256 v) eqn:E5; [|discriminate].
  intros _. apply uint_ok_spec in E1, E3, E4, E5. apply Nat.eqb_eq in E2.
  unfold ComposeCodec.wellFormed. tauto.
Qed.

Lemma bn_div_nonneg a b : 0 <= a -> 0 < b -> Ethers.bn_div a b = a / b.
Proof. intros Ha Hb. unfold Ethers.bn_div. apply Z.quot_div_nonneg; lia. Qed.

Lemma main11_run env CONFIG p w :
  Script11.plan env CONFIG = Ok p -> no_faults env ->
  exists w1,
    sends w1 = sends w /\
    Script11.main env CONFIG w =
      (submit (TxSend (mkContract (Script11.base_rpcUrl CONFIG)
                         (Script11.base_stargatePoolUSDC CONFIG))
                 (Script11.baseWallet p) (Script11.firstHopSendParam p)
                 {| nativeFee := Script11.firstHopFee p; lzTokenFee := 0 |}
                 (Script11.baseWallet p) (Script11.firstHopFee p)) w1, Ok tt).
Proof.
  intros Hplan Hnf.
  pose proof (approveUSDC_run env Hnf CONFIG (Script11.baseWallet p)
                (Script11.usdcAmountUnits p) w) as Hstep.
  cbv zeta in Hstep.
  destruct Hnf as (_ & _ & Hsend & Hwait).
  unfold Script11.main, bind at 1, lift. rewrite Hplan. unfold Ok.
  unfold bind at 1. rewrite Hstep.
  destruct (_ <? Script11.usdcAmountUnits p).
  - eexists. split.
    2:{ unfold Ok. cbv zeta. unfold bind, send, wait. rewrite Hsend. cbv zeta.
        unfold Ok. rewrite Hwait. reflexivity. }
    rewrite sends_mined. apply sends_submit_approve.
  - exists w. split; [reflexivity|].
    unfold Ok. cbv zeta. unfold bind, send, wait. rewrite Hsend. cbv zeta.
    unfold Ok. rewrite Hwait. reflexivity.
Qed.

(** C1, as amended.  In the two-hop deposit scripts (11 and 1), once the
    plan is built and the transactions go through, exactly one [send] is
    submitted; it is addressed to the hub's composer on the hub's endpoint
    id, and its compose payload decodes to the second hop: destination
    endpoint id as requested, amount equal to the vault's [previewDeposit]
    output as it is (in script 1 the input amount when the preview
    throws), and minimum amount equal to that output reduced by the
    slippage basis points (script 11: the configured ones, which also
    reduce the first hop; script 1: 50 when no minimum is configured). *)
Theorem C1_two_hop_deposit :
  (forall env CONFIG p w,
      Script11.plan env CONFIG = Ok p ->
      ComposeCodec.compact (Script11.secondHopSendParam p) ->
      no_faults env ->
      let hop1 := Script11.firstHopSendParam p in
      let pool := mkContract (Script11.base_rpcUrl CONFIG)
                    (Script11.base_stargatePoolUSDC CONFIG) in
      let vault := mkContract (Script11.ethereum_rpcUrl CONFIG)
                     (Script11.ethereum_vault CONFIG) in
      exists w' hop2 value,
        Script11.main env CONFIG w = (w', Ok tt) /\
        sends w' = sends w ++
          [TxSend pool (Script11.baseWallet p) hop1
             {| nativeFee := Script11.firstHopFee p; lzTokenFee := 0 |}
             (Script11.baseWallet p) (Script11.firstHopFee p)] /\
        addressToBytes32 env (Script11.ethereum_composer CONFIG) = Ok (to hop1) /\
        dstEid hop1 = Script11.ethereum_eid CONFIG /\
        minAmountLD hop1 =
          Script11.calculateMinAmount (amountLD hop1) (Script11.slippageBps CONFIG) /\
        ComposeCodec.decode (composeMsg hop1) = Some (hop2, value) /\
        dstEid hop2 = Script11.katana_eid CONFIG /\
        vault_previewDeposit env vault (amountLD hop1) = Ok (amountLD hop2) /\
        minAmountLD hop2 =
          Script11.calculateMinAmount (amountLD hop2) (Script11.slippageBps CONFIG))
  /\
  (forall env CONFIG p w msgFee,
      Script1.plan env CONFIG = Ok p ->
      ComposeCodec.compact (Script1.secondHopSendParam p) ->
      oft_quoteSend env (Script1.srcOFT p) (Script1.sendParam p) false = Ok msgFee ->
      no_faults env ->
      let hop1 := Script1.sendParam p in
      exists w' hubc dstc hop2 value,
        chain_lookup (Script1.hubChain CONFIG) (Script1.chains CONFIG) = Some hubc /\
        chain_lookup (Script1.dstChain CONFIG) (Script1.chains CONFIG) = Some dstc /\
        Script1.main env CONFIG w = (w', Ok tt) /\
        sends w' = sends w ++
          [TxSend (Script1.srcOFT p) (Script1.srcWallet p) hop1 msgFee
             (Script1.srcWallet p)
             (Common.txValue (Script1.isNativeToken p) msgFee (amountLD hop1))] /\
        addressToBytes32 env (Script1.hub_composer CONFIG) = Ok (to hop1) /\
        dstEid hop1 = eid hubc /\
        ComposeCodec.decode (composeMsg hop1) = Some (hop2, value) /\
        dstEid hop2 = eid dstc /\
        amountLD hop2 =
          match vault_previewDeposit env
                  (mkContract (rpcUrl hubc) (Script1.hub_vault CONFIG))
                  (amountLD hop1) with
          | inr shares => shares
          | inl _ => amountLD hop1
          end /\
        (truthy (Script1.minAmount CONFIG) = None ->
         minAmountLD hop2 = amountLD hop2 * (10000 - 50) / 10000)).
Proof.
  split.
  - intros env CONFIG p w Hplan Hcompact Hnf hop1 pool vault.
    destruct (plan11_shape env CONFIG p Hplan)
      as (r32 & ro & co & q2 & q1 & F).
    decompose [and] F. clear F.
    destruct (main11_run env CONFIG p w Hplan Hnf) as (w1 & Hs & Hmain).
    match goal with
    | Henc : ComposeCodec.encode _ _ = Ok _ |- _ =>
        pose proof (decode_encode _ _ _ Hcompact Henc) as Hdec
    end.
    exists (submit (TxSend pool (Script11.baseWallet p) hop1
                      {| nativeFee := Script11.firstHopFee p; lzTokenFee := 0 |}
                      (Script11.baseWallet p) (Script11.firstHopFee p)) w1),
      (Script11.secondHopSendParam p), (Script11.composeValue p).
    subst hop1 pool vault.
    split; [exact Hmain|].
    split; [rewrite sends_submit_send, Hs; reflexivity|].
    split; [assumption|].
    match goal with
    | H1 : Script11.firstHopSendParam p = _,
      H2 : Script11.secondHopSendParam p = _ |- _ =>
        pose proof (f_equal dstEid H1) as D1;
        pose proof (f_equal amountLD H1) as A1;
        pose proof (f_equal minAmountLD H1) as M1;
        pose proof (f_equal dstEid H2) as D2;
        pose proof (f_equal amountLD H2) as A2;
        pose proof (f_equal minAmountLD H2) as M2
    end.
    cbn [dstEid minAmountLD amountLD] in D1, A1, M1, D2, A2, M2.
    rewrite D1, M1, A1, D2, M2, A2.
    repeat split; try assumption; reflexivity.
  - intros env CONFIG p w msgFee Hplan Hcompact Hq Hnf hop1.
    destruct (plan1_shape env CONFIG p Hplan)
      as (srcc & hubc & dstc & aa & ad & sd & r32 & ro & co & F).
    cbv zeta in F. decompose [and] F. clear F.
    destruct (main1_run env CONFIG p Hplan w) as (w1 & Hs & Hmain).
    rewrite (quoteAndSend_ok env _ _ _ _ _ msgFee w1 Hq Hnf) in Hmain.
    match goal with
    | Henc : ComposeCodec.encode _ _ = Ok _ |- _ =>
        pose proof (decode_encode _ _ _ Hcompact Henc) as Hdec;
        destruct (encode_accepts _ _ _ Henc) as ((_ & _ & Hamt & _) & _)
    end.
    eexists _, hubc, dstc, (Script1.secondHopSendParam p), (Script1.composeValue p).
    subst hop1.
    assert (Hin : amountLD (Script1.sendParam p) = Script1.inputAmountUnits p).
    { match goal with
      | H1 : Script1.sendParam p = _ |- _ => rewrite H1; reflexivity
      end. }
    rewrite Hin.
    split; [assumption|]. split; [assumption|].
    split; [exact Hmain|].
    split; [rewrite sends_submit_send, Hs; reflexivity|].
    split; [assumption|].
    split; [match goal with
            | H1 : Script1.sendParam p = _ |- _ => rewrite H1; reflexivity
            end|].
    split; [exact Hdec|].
    split; [match goal with
            | H2 : Script1.secondHopSendParam p = _ |- _ => rewrite H2; reflexivity
            end|].
    split.
    + match goal with
      | H3 : Common.previewOrOneToOne _ _ = Ok _ |- _ =>
          unfold Common.previewOrOneToOne, rcatch in H3;
          destruct (vault_previewDeposit env _ (Script1.inputAmountUnits p));
          apply Ok_inj in H3; symmetry; exact H3
      end.
    + intros Hnone.
      match goal with
      | H4 : Common.minAmountWithSlippage _ _ _ = Ok _ |- _ =>
          unfold Common.minAmountWithSlippage in H4; rewrite Hnone in H4;
          cbv zeta in H4; apply Ok_inj in H4; rewrite <- H4
      end.
      apply bn_div_nonneg; lia.
Qed.

(** In the plan of script 1, a second-hop quote that throws cannot be told
    from one that returns the default fee. *)
Lemma plan1_absorbs_quote_failure env CONFIG e :
  Script1.plan (with_quoteSend env (fun _ _ _ => inl e)) CONFIG =
  Script1.plan
    (with_quoteSend env (fun _ _ _ => Ok (mkFee Script1.defaultComposeValue 0)))
    CONFIG.
Proof.
  unfold Script1.plan, with_quoteSend, Script1.quoteSecondHop.
  cbn [walletOf vault_asset erc20_decimals vault_previewDeposit oft_token
       oft_quoteSend addressToBytes32 addExecutorLzReceiveOption
       addExecutorLzComposeOption nativeFee Ok].
  repeat match goal with
         | |- rbind ?r _ = rbind ?r _ =>
             destruct r; cbn [rbind]; [reflexivity|]
         end.
  reflexivity.
Qed.


(** ** Decimal strings, truncating division and the plan of script 11
    read forwards *)

Section ParseUnitsFacts.
Import Ethers JsNumber.

Lemma digit_not_dot c : is_digit c = true -> is_dot c = false.
Proof.
  unfold is_digit, is_dot. cbv zeta. intros H.
  apply andb_true_iff in H. destruct H as [H1 H2].
  apply N.leb_le in H1, H2. apply N.eqb_neq. lia.
Qed.

Lemma digit_not_minus c : is_digit c = true -> is_minus c = false.
Proof.
  unfold is_digit, is_minus. cbv zeta. intros H.
  apply andb_true_iff in H. destruct H as [H1 H2].
  apply N.leb_le in H1, H2. apply N.eqb_neq. lia.
Qed.

Lemma zero_char_is_zero c : is_zero_char c = true -> c = "0"%char.
Proof.
  unfold is_zero_char. intros H. apply N.eqb_eq in H.
  rewrite <- (ascii_N_embedding c), H. reflexivity.
Qed.

Lemma digits_value_app s t acc :
  digits_value acc (s ++ t) = digits_value (digits_value acc s) t.
Proof. revert acc. induction s as [|c s IH]; intros acc; cbn; [reflexivity|apply IH]. Qed.

Lemma digits_value_zeros k acc :
  digits_value acc (zero_string k) = acc * 10 ^ Z.of_nat k.
Proof.
  revert acc. induction k as [|k IH]; intros acc.
  - cbn. lia.
  - cbn [zero_string digits_value]. rewrite IH.
    rewrite Nat2Z.inj_succ, Z.pow_succ_r by lia.
    change (Z.of_N (N_of_ascii "0") - 48) with 0. lia.
Qed.

Lemma length_app_string s t :
  String.length (s ++ t) = (String.length s + String.length t)%nat.
Proof. induction s as [|c s IH]; cbn; [reflexivity|rewrite IH; reflexivity]. Qed.

Lemma length_zero_string k : String.length (zero_string k) = k.
Proof. induction k as [|k IH]; cbn; [reflexivity|rewrite IH; reflexivity]. Qed.

(** The trimming loop removes a run of zeros at the end, nothing else. *)
Lemma trim_trailing_zeros_spec f :
  exists k, f = (trim_trailing_zeros f ++ zero_string k)%string.
Proof.
  induction f as [|c r [k IH]].
  - exists 0%nat. reflexivity.
  - cbn [trim_trailing_zeros].
    destruct (trim_trailing_zeros r) as [|c' r'] eqn:Htrim.
    + destruct (is_zero_char c) eqn:Hz.
      * exists (S k). apply zero_char_is_zero in Hz. subst c.
        cbn. rewrite IH at 1. reflexivity.
      * exists k. cbn. rewrite IH at 1. reflexivity.
    + exists k. cbn. rewrite IH at 1. reflexivity.
Qed.

Lemma decimal_chars_digits s : all_digits s = true -> decimal_chars s = true.
Proof.
  induction s as [|c s IH]; cbn; [reflexivity|].
  intros H. apply andb_true_iff in H. destruct H as [Hc Hs].
  rewrite Hc, (IH Hs). reflexivity.
Qed.

Lemma decimal_chars_app s t :
  decimal_chars s = true -> decimal_chars t = true -> decimal_chars (s ++ t) = true.
Proof.
  induction s as [|c s IH]; cbn; [intros _ H; exact H|].
  intros H Ht. apply andb_true_iff in H. destruct H as [Hc Hs].
  rewrite Hc, (IH Hs Ht). reflexivity.
Qed.

Lemma split_dot_digits s : all_digits s = true -> split_dot s = [s].
Proof.
  induction s as [|c s IH]; cbn; [reflexivity|].
  intros H. apply andb_true_iff in H. destruct H as [Hc Hs].
  rewrite (digit_not_dot c Hc), (IH Hs). reflexivity.
Qed.

Lemma split_dot_point w f :
  all_digits w = true -> all_digits f = true ->
  split_dot (w ++ "." ++ f) = [w; f].
Proof.
  intros Hw Hf. induction w as [|c w IH].
  - cbn. rewrite (split_dot_digits f Hf). reflexivity.
  - cbn in Hw. apply andb_true_iff in Hw. destruct Hw as [Hc Hw].
    cbn [append split_dot]. rewrite (digit_not_dot c Hc).
    cbn [append] in IH. rewrite (IH Hw). reflexivity.
Qed.

(** What [parseUnits] makes of a plain decimal [w.f]: the number itself,
    in units of [10^-decimals]. *)
Lemma parseUnits_decimal w f decimals :
  all_digits w = true -> w <> EmptyString -> all_digits f = true ->
  Z.of_nat (String.length f) <= decimals ->
  parseUnits (w ++ "." ++ f) decimals =
    Ok (digits_value 0 w * 10 ^ decimals
        + digits_value 0 f * 10 ^ (decimals - Z.of_nat (String.length f))).
Proof.
  intros Hw Hne Hf Hlen.
  destruct w as [|c w]; [contradiction|].
  pose proof Hw as Hw'. cbn in Hw'. apply andb_true_iff in Hw'.
  destruct Hw' as [Hc Hw'].
  unfold parseUnits. cbn [append].
  rewrite (digit_not_minus c Hc).
  change (String c (w ++ String "." f)) with (String c w ++ "." ++ f)%string.
  rewrite decimal_chars_app;
    [| apply decimal_chars_digits; exact Hw
     | cbn; apply decimal_chars_digits; exact Hf].
  cbn [negb].
  replace (String.eqb (String c w ++ "." ++ f) ".") with false.
  2:{ symmetry. cbn. destruct (Ascii.eqb c ".") eqn:E; [|reflexivity].
      apply Ascii.eqb_eq in E. subst c. discriminate Hc. }
  rewrite (split_dot_point (String c w) f Hw Hf).
  cbn [length Nat.ltb Nat.leb nth or_zero].
  destruct (trim_trailing_zeros_spec (or_zero f)) as [k Hk].
  set (t := trim_trailing_zeros (or_zero f)) in *.
  assert (Hval : digits_value 0 f * 10 ^ (decimals - Z.of_nat (String.length f))
                 = digits_value 0 t * 10 ^ (decimals - Z.of_nat (String.length t))
                 /\ Z.of_nat (String.length t) <= decimals).
  { destruct f as [|cf f].
    - subst t. cbn. lia.
    - cbn [or_zero] in Hk. rewrite Hk at 1 2.
      rewrite digits_value_app, digits_value_zeros, length_app_string,
        length_zero_string.
      assert (Hl : String.length (String cf f)
                   = (String.length t + k)%nat).
      { rewrite Hk at 1. rewrite length_app_string, length_zero_string. reflexivity. }
      rewrite Hl in Hlen. split; [|lia].
      rewrite Nat2Z.inj_add, <- Z.mul_assoc, <- Z.pow_add_r by lia.
      f_equal. f_equal. lia. }
  destruct Hval as [Hval Hfit].
  replace (decimals <? Z.of_nat (String.length t)) with false
    by (symmetry; apply Z.ltb_ge; exact Hfit).
  rewrite Hval. reflexivity.
Qed.

(** A whole number [w], without a point. *)
Lemma parseUnits_whole w decimals :
  all_digits w = true -> w <> EmptyString -> 0 <= decimals ->
  parseUnits w decimals = Ok (digits_value 0 w * 10 ^ decimals).
Proof.
  intros Hw Hne Hd.
  destruct w as [|c w]; [contradiction|].
  pose proof Hw as Hw'. cbn in Hw'. apply andb_true_iff in Hw'.
  destruct Hw' as [Hc Hw'].
  unfold parseUnits.
  rewrite (digit_not_minus c Hc).
  rewrite (decimal_chars_digits _ Hw). cbn [negb].
  replace (String.eqb (String c w) ".") with false.
  2:{ symmetry. cbn. destruct (Ascii.eqb c ".") eqn:E; [|reflexivity].
      apply Ascii.eqb_eq in E. subst c. discriminate Hc. }
  rewrite (split_dot_digits _ Hw).
  cbn [length Nat.ltb Nat.leb nth or_zero trim_trailing_zeros].
  change (is_zero_char "0") with true. cbv iota.
  cbn [String.length Z.of_nat digits_value].
  replace (decimals <? 0) with false by (symmetry; apply Z.ltb_ge; exact Hd).
  f_equal. lia.
Qed.

End ParseUnitsFacts.

(** Truncating division of a numerator that is not positive rounds up. *)
Lemma bn_div_nonpos a b :
  a <= 0 -> 0 < b -> Ethers.bn_div a b = - (- a / b).
Proof.
  intros Ha Hb. unfold Ethers.bn_div.
  rewrite <- (Z.opp_involutive a) at 1.
  rewrite Z.quot_opp_l by lia. f_equal. apply Z.quot_div_nonneg; lia.
Qed.

Lemma encode_total p v :
  ComposeCodec.wellFormed p -> 0 <= v < 2 ^ 256 ->
  ComposeCodec.encode p v
    = Ok (Abi.word 64 ++ Abi.word v ++ ComposeCodec.encodeSendParam p).
Proof.
  intros (H1 & H2 & H3 & H4) Hv. unfold ComposeCodec.encode.
  apply uint_ok_spec in H1, H3, H4, Hv. apply Nat.eqb_eq in H2.
  rewrite H1, H2, H3, H4, Hv. reflexivity.
Qed.

(** A negative minimum does not fit [uint256]: the coder refuses the
    compose payload. *)
Lemma encode_negative_minimum p v :
  0 <= dstEid p < 2 ^ 32 -> length (to p) = 32%nat -> 0 <= amountLD p < 2 ^ 256 ->
  minAmountLD p < 0 ->
  ComposeCodec.encode p v = Err (NumericFault "uint256").
Proof.
  intros H1 H2 H3 H4. unfold ComposeCodec.encode.
  apply uint_ok_spec in H1, H3. apply Nat.eqb_eq in H2.
  rewrite H1, H2, H3. cbn [negb].
  replace (ComposeCodec.uint_ok 256 (minAmountLD p)) with false; [reflexivity|].
  symmetry. unfold ComposeCodec.uint_ok.
  replace (0 <=? minAmountLD p) with false; [reflexivity|].
  symmetry. apply Z.leb_gt. exact H4.
Qed.

Section Script11Forward.
Import Ethers Script11.
Variables (env : Env) (CONFIG : Config).
Variables (wallet : string) (a s d : Z) (r32 ro : bytes) (q2 : MessagingFee).

Hypothesis Hkey : String.eqb (privateKey CONFIG) "YOUR_PRIVATE_KEY_HERE" = false.
Hypothesis Hwallet : walletOf env (privateKey CONFIG) = Ok wallet.
Hypothesis Hparse : parseUnits (usdcAmount CONFIG) 6 = Ok a.

(** Nothing but the key is checked before the vault is asked. *)
Lemma plan11_preview_fails e :
  vault_previewDeposit env
    (mkContract (ethereum_rpcUrl CONFIG) (ethereum_vault CONFIG)) a = inl e ->
  plan env CONFIG = inl e.
Proof.
  intros Hprev. unfold plan. rewrite Hkey. cbn [throw_if rbind Ok].
  rewrite Hwallet. unfold Ok in *. cbn [rbind]. rewrite Hparse. cbn [rbind].
  rewrite Hprev. reflexivity.
Qed.

Hypothesis Hpreview :
  vault_previewDeposit env
    (mkContract (ethereum_rpcUrl CONFIG) (ethereum_vault CONFIG)) a = Ok s.
Hypothesis Hdecimals :
  erc20_decimals env
    (mkContract (ethereum_rpcUrl CONFIG) (ethereum_vault CONFIG)) = Ok d.
Hypothesis Hrecipient : addressToBytes32 env (recipientAddress CONFIG) = Ok r32.
Hypothesis Hoptions : addExecutorLzReceiveOption env 100000 0 = Ok ro.
Hypothesis Hquote :
  oft_quoteSend env
    (mkContract (ethereum_rpcUrl CONFIG) (ethereum_shareOFT CONFIG))
    {| dstEid := katana_eid CONFIG; to := r32; amountLD := s;
       minAmountLD := calculateMinAmount s (slippageBps CONFIG);
       extraOptions := ro; composeMsg := hex_empty; oftCmd := hex_empty |}
    false = Ok q2.

(** [main] from [// Add 20% buffer] on, once the second-hop quote is in. *)
Lemma plan11_after_quote :
  plan env CONFIG =
    let hop2 :=
      {| dstEid := katana_eid CONFIG; to := r32; amountLD := s;
         minAmountLD := calculateMinAmount s (slippageBps CONFIG);
         extraOptions := ro; composeMsg := hex_empty; oftCmd := hex_empty |} in
    let fee := withBuffer (nativeFee q2) in
    let? composeMsg := ComposeCodec.encode hop2 fee in
    let? composeValueNumber := toNumber fee in
    let? extraOptions :=
      addExecutorComposeOption env 0 (composeGas CONFIG) composeValueNumber in
    let? composer32 := addressToBytes32 env (ethereum_composer CONFIG) in
    let hop1 :=
      {| dstEid := ethereum_eid CONFIG; to := composer32; amountLD := a;
         minAmountLD := calculateMinAmount a (slippageBps CONFIG);
         extraOptions := extraOptions; composeMsg := composeMsg;
         oftCmd := hex_empty |} in
    let? firstHopQuote :=
      oft_quoteSend env
        (mkContract (base_rpcUrl CONFIG) (base_stargatePoolUSDC CONFIG))
        hop1 false in
    Ok (mkPlan wallet a s hop2 (nativeFee q2) fee hop1 (nativeFee firstHopQuote)).
Proof.
  unfold plan. rewrite Hkey. cbn [throw_if rbind Ok].
  rewrite Hwallet. unfold Ok in *. cbn [rbind]. rewrite Hparse. cbn [rbind].
  rewrite Hpreview. cbn [rbind]. rewrite Hdecimals. cbn [rbind].
  rewrite Hrecipient. cbn [rbind]. rewrite Hoptions. cbn [rbind].
  rewrite Hquote. cbn [rbind]. reflexivity.
Qed.

(** The rest of the plan, when every remaining call answers and the
    buffered fee is a safe integer. *)
Lemma plan11_built co c32 q1 :
  let hop2 :=
    {| dstEid := katana_eid CONFIG; to := r32; amountLD := s;
       minAmountLD := calculateMinAmount s (slippageBps CONFIG);
       extraOptions := ro; composeMsg := hex_empty; oftCmd := hex_empty |} in
  let fee := nativeFee q2 * 120 / 100 in
  let hop1 :=
    {| dstEid := ethereum_eid CONFIG; to := c32; amountLD := a;
       minAmountLD := calculateMinAmount a (slippageBps CONFIG);
       extraOptions := co;
       composeMsg := Abi.word 64 ++ Abi.word fee ++ ComposeCodec.encodeSendParam hop2;
       oftCmd := hex_empty |} in
  ComposeCodec.wellFormed hop2 ->
  0 <= nativeFee q2 <= 7505999378950826 ->
  addExecutorComposeOption env 0 (composeGas CONFIG) fee = Ok co ->
  addressToBytes32 env (ethereum_composer CONFIG) = Ok c32 ->
  oft_quoteSend env
    (mkContract (base_rpcUrl CONFIG) (base_stargatePoolUSDC CONFIG)) hop1 false
    = Ok q1 ->
  plan env CONFIG = Ok (mkPlan wallet a s hop2 (nativeFee q2) fee hop1 (nativeFee q1)).
Proof.
  intros hop2 fee hop1 Hwf Hfee Hco Hc32 Hq1.
  rewrite plan11_after_quote. cbv zeta. fold hop2.
  assert (Hbuf : withBuffer (nativeFee q2) = fee)
    by (unfold withBuffer; apply bn_div_nonneg; lia).
  assert (Hsafe : 0 <= fee <= 2 ^ 53 - 1).
  { subst fee. change (2 ^ 53 - 1) with 9007199254740991.
    pose proof (Z.div_mod (nativeFee q2 * 120) 100 ltac:(lia)).
    pose proof (Z.mod_pos_bound (nativeFee q2 * 120) 100 ltac:(lia)).
    lia. }
  rewrite Hbuf.
  rewrite (encode_total hop2 fee Hwf)
    by (change (2 ^ 53 - 1) with 9007199254740991 in Hsafe;
        pose proof (Z.pow_lt_mono_r 2 54 256 ltac:(lia) ltac:(lia) ltac:(lia));
        change (2 ^ 54) with 18014398509481984 in *; lia).
  unfold Ok in *. cbn [rbind]. unfold toNumber.
  replace (Z.abs fee <=? MAX_SAFE_INTEGER) with true
    by (symmetry; apply Z.leb_le; unfold MAX_SAFE_INTEGER; lia).
  unfold Ok. cbn [rbind]. rewrite Hco. cbn [rbind]. rewrite Hc32. cbn [rbind].
  fold hop1. rewrite Hq1. reflexivity.
Qed.
End Script11Forward.

(** A plan that fails is the failure of [main], with nothing submitted. *)
Lemma main11_plan_fails env CONFIG e w :
  Script11.plan env CONFIG = inl e -> Script11.main env CONFIG w = (w, inl e).
Proof. intros H. unfold Script11.main, bind, lift. rewrite H. reflexivity. Qed.

Lemma withBuffer_floor fee :
  0 <= Script11.withBuffer fee -> Script11.withBuffer fee = fee * 120 / 100.
Proof.
  unfold Script11.withBuffer, Ethers.bn_div. intros H.
  destruct (Z_lt_le_dec fee 0) as [Hneg|Hpos].
  - exfalso. assert (Hlow : fee * 120 <= -120) by lia.
    revert H Hlow. generalize (fee * 120). intros a.
    Z.to_euclidean_division_equations. lia.
  - apply Z.quot_div_nonneg; lia.
Qed.




(** C4.  The first hop's minimum in scripts 1, 8 and part_001 is computed
    on JavaScript Numbers from the human-readable amount and only then
    converted with [decimals].  For the amount ['1.23'] the product prints
    as ['1.2238499999999999']: with six decimals [parseUnits] throws and
    script 1 aborts before any transaction, where integer arithmetic on
    the 1230000 smallest units gives 1223850; with eighteen decimals the
    result is 100 units short of the integer formula. *)
Theorem C4_first_hop_minimum_in_floats :
  Common.scaledAmountString "1.23" 50 = "1.2238499999999999" /\
  Ethers.parseUnits "1.23" 6 = Ok 1230000 /\
  Ethers.bn_div (1230000 * (10000 - 50)) 10000 = 1223850 /\
  Common.firstHopMinAmount None "1.23" 6
    = Err (NumericFault "fractional component exceeds decimals") /\
  Script1.main (Scenario.env Scenario.hubUrl 700 1000) (Scenario.config1 "1.23")
    Scenario.fresh
    = (Scenario.fresh, Err (NumericFault "fractional component exceeds decimals")) /\
  Common.firstHopMinAmount None "1.23" 18 = Ok 1223849999999999900 /\
  Ethers.bn_div (1230000000000000000 * (10000 - 50)) 10000 = 1223850000000000000.
Proof. repeat split; vm_compute; reflexivity. Qed.

(** C5, as amended.  Among the hop instructions a script constructs, only
    one addressed to the hub's composer carries a compose payload; whether
    a further cross-chain hop follows plays no part.  In the spoke-to-hub
    scripts (part_001, script 8) the one hop submitted goes to the composer
    and its payload is never empty: it decodes to an instruction for the
    hub's own endpoint id, the endpoint the hop itself goes to, with zero
    value.  The instruction nested in the payload, and the hop of the
    hub-to-spoke script 5, carry the empty ['0x']. *)
Theorem C5_compose_payload_presence :
  (forall env CONFIG p,
      Part001.plan env CONFIG = Ok p ->
      ComposeCodec.compact (Part001.secondHopSendParam p) ->
      let hop1 := Part001.sendParam p in
      let nested := Part001.secondHopSendParam p in
      (forall hop, In hop [hop1; nested] -> composeMsg hop <> hex_empty ->
         addressToBytes32 env (Part001.hub_composer CONFIG) = Ok (to hop)) /\
      addressToBytes32 env (Part001.hub_composer CONFIG) = Ok (to hop1) /\
      composeMsg hop1 <> hex_empty /\
      ComposeCodec.decode (composeMsg hop1) = Some (nested, 0) /\
      dstEid hop1 = Part001.hubEid p /\
      dstEid nested = Part001.hubEid p /\
      addressToBytes32 env (Part001.recipientAddress CONFIG) = Ok (to nested) /\
      composeMsg nested = hex_empty)
  /\
  (forall env CONFIG p,
      Script8.plan env CONFIG = Ok p ->
      ComposeCodec.compact (Script8.secondHopSendParam p) ->
      let hop1 := Script8.sendParam p in
      let nested := Script8.secondHopSendParam p in
      (forall hop, In hop [hop1; nested] -> composeMsg hop <> hex_empty ->
         addressToBytes32 env (Script8.hub_composer CONFIG) = Ok (to hop)) /\
      addressToBytes32 env (Script8.hub_composer CONFIG) = Ok (to hop1) /\
      composeMsg hop1 <> hex_empty /\
      ComposeCodec.decode (composeMsg hop1) = Some (nested, 0) /\
      dstEid hop1 = Script8.hubEid p /\
      dstEid nested = Script8.hubEid p /\
      addressToBytes32 env (Script8.recipientAddress CONFIG) = Ok (to nested) /\
      composeMsg nested = hex_empty)
  /\
  (forall env CONFIG s hop,
      Script5.buildSendParam env CONFIG s = Ok hop ->
      addressToBytes32 env (Script5.recipientAddress CONFIG) = Ok (to hop) /\
      composeMsg hop = hex_empty).
Proof.
  split; [|split].
  - intros env CONFIG p Hplan Hcompact hop1 nested.
    destruct (plan001_shape env CONFIG p Hplan)
      as (srcc & hubc & aa & ad & sd & r32 & ro & co & F).
    cbv zeta in F. decompose [and] F. clear F.
    assert (Hnil : composeMsg nested = hex_empty).
    { subst nested.
      match goal with
      | H2 : Part001.secondHopSendParam p = _ |- _ =>
          rewrite (f_equal composeMsg H2); reflexivity
      end. }
    assert (Hto : addressToBytes32 env (Part001.hub_composer CONFIG) = Ok (to hop1))
      by assumption.
    split.
    { intros hop [<- | [<- | []]] Hne; [exact Hto | contradiction]. }
    split; [exact Hto|].
    split; [subst hop1; eapply encode_nonempty; eassumption|].
    split; [subst hop1 nested; eapply decode_encode; eassumption|].
    split.
    { subst hop1.
      match goal with
      | H1 : Part001.sendParam p = _, He : Part001.hubEid p = _ |- _ =>
          rewrite (f_equal dstEid H1), He; reflexivity
      end. }
    split.
    { subst nested.
      match goal with
      | H2 : Part001.secondHopSendParam p = _, He : Part001.hubEid p = _ |- _ =>
          rewrite (f_equal dstEid H2), He; reflexivity
      end. }
    split; [|exact Hnil].
    subst nested.
    match goal with
    | H2 : Part001.secondHopSendParam p = _ |- _ =>
        rewrite (f_equal to H2); cbn [to]; assumption
    end.
  - intros env CONFIG p Hplan Hcompact hop1 nested.
    destruct (plan8_shape env CONFIG p Hplan) as (hubc & r32 & ro & co & F).
    decompose [and] F. clear F.
    assert (Hnil : composeMsg nested = hex_empty).
    { subst nested.
      match goal with
      | H2 : Script8.secondHopSendParam p = _ |- _ =>
          rewrite (f_equal composeMsg H2); reflexivity
      end. }
    assert (Hto : addressToBytes32 env (Script8.hub_composer CONFIG) = Ok (to hop1))
      by assumption.
    split.
    { intros hop [<- | [<- | []]] Hne; [exact Hto | contradiction]. }
    split; [exact Hto|].
    split; [subst hop1; eapply encode_nonempty; eassumption|].
    split; [subst hop1 nested; eapply decode_encode; eassumption|].
    split.
    { subst hop1.
      match goal with
      | H1 : Script8.sendParam p = _, He : Script8.hubEid p = _ |- _ =>
          rewrite (f_equal dstEid H1), He; reflexivity
      end. }
    split.
    { subst nested.
      match goal with
      | H2 : Script8.secondHopSendParam p = _, He : Script8.hubEid p = _ |- _ =>
          rewrite (f_equal dstEid H2), He; reflexivity
      end. }
    split; [|exact Hnil].
    subst nested.
    match goal with
    | H2 : Script8.secondHopSendParam p = _ |- _ =>
        rewrite (f_equal to H2); cbn [to]; assumption
    end.
  - intros env CONFIG s hop H. split; apply (buildSendParam5_shape env CONFIG s hop H).
Qed.

(** ** The theorems at work on the sample deployment *)

(** Script 11 converts the buffered fee with [toNumber()]: from 2^53 wei
    (about 0.009 ETH) on, the plan fails.  A quote of 0.025 ETH, the fee
    script 1 falls back to, is enough. *)
Example script11_large_fee_overflows :
  Script11.plan (Scenario.env Scenario.ethereumUrl 700 25000000000000000)
    (Scenario.config11 50) = Err (NumericFault "overflow").
Proof. vm_compute. reflexivity. Qed.

Lemma scenario_no_faults hubUrl hubQuote spokeQuote token probe :
  no_faults (Scenario.deployment hubUrl hubQuote spokeQuote token probe).
Proof. repeat split. Defined.

(** C1, counterexample.  Script 11 on the sample deployment, 0.2 USDC at
    50 basis points: the vault previews 200000 shares, and the second hop
    decoded from the compose payload of the one [send] has amount 200000,
    not the 199000 that 50 basis points less would give; 199000 is its
    minimum amount. *)
Lemma C1_counterexample :
  let run := Script11.main Scenario.env11 (Scenario.config11 50) Scenario.fresh in
  snd run = Ok tt /\
  exists pool sender hop1 fee refund value hop2 msgValue,
    sends (fst run) = [TxSend pool sender hop1 fee refund value] /\
    ComposeCodec.decode (composeMsg hop1) = Some (hop2, msgValue) /\
    vault_previewDeposit Scenario.env11
      (mkContract Scenario.ethereumUrl
         (Script11.ethereum_vault (Scenario.config11 50))) (amountLD hop1)
      = Ok 200000 /\
    Script11.calculateMinAmount 200000 50 = 199000 /\
    amountLD hop2 = 200000 /\
    amountLD hop2 <> Script11.calculateMinAmount 200000 50.
Proof.
  cbv zeta. split; [vm_compute; reflexivity|].
  do 8 eexists.
  split; [vm_compute; reflexivity|].
  split; [vm_compute; reflexivity|].
  split; [vm_compute; reflexivity|].
  split; [vm_compute; reflexivity|].
  split; [vm_compute; reflexivity|].
  vm_compute. discriminate.
Qed.

(** The amended C1 on the sample deployment: script 11 with 0.2 USDC, script
    1 with 1.0 token. *)
Lemma C1_witness :
  (exists p,
      Script11.plan Scenario.env11 (Scenario.config11 50) = Ok p /\
      exists w' hop2 value,
        Script11.main Scenario.env11 (Scenario.config11 50) Scenario.fresh = (w', Ok tt) /\
        length (sends w') = 1%nat /\
        ComposeCodec.decode (composeMsg (Script11.firstHopSendParam p))
          = Some (hop2, value) /\
        dstEid hop2 = 30375 /\ amountLD hop2 = 200000 /\ minAmountLD hop2 = 199000)
  /\
  (exists p,
      Script1.plan Scenario.env1 (Scenario.config1 "1.0") = Ok p /\
      exists w' hop2 value,
        Script1.main Scenario.env1 (Scenario.config1 "1.0") Scenario.fresh = (w', Ok tt) /\
        length (sends w') = 1%nat /\
        ComposeCodec.decode (composeMsg (Script1.sendParam p)) = Some (hop2, value) /\
        dstEid hop2 = 40232 /\ amountLD hop2 = 1000000 /\ minAmountLD hop2 = 995000).
Proof.
  split.
  - destruct (Script11.plan Scenario.env11 (Scenario.config11 50)) as [e|p] eqn:Hplan;
      [vm_compute in Hplan; discriminate Hplan|].
    exists p. split; [reflexivity|].
    destruct (proj1 C1_two_hop_deposit Scenario.env11 (Scenario.config11 50) p
                Scenario.fresh Hplan)
      as (w' & hop2 & value & Hmain & Hsends & _ & _ & _ & Hdec & Heid & Hprev & Hmin).
    + vm_compute in Hplan. apply Ok_inj in Hplan. subst p.
      repeat split; vm_compute; reflexivity.
    + apply scenario_no_faults.
    + exists w', hop2, value.
      split; [exact Hmain|].
      split; [rewrite Hsends; reflexivity|].
      split; [exact Hdec|].
      split; [exact Heid|].
      vm_compute in Hplan. apply Ok_inj in Hplan. subst p.
      cbn in Hprev, Hmin. apply Ok_inj in Hprev. subst.
      split; [congruence|]. rewrite Hmin, <- Hprev. vm_compute. reflexivity.
  - destruct (Script1.plan Scenario.env1 (Scenario.config1 "1.0")) as [e|p] eqn:Hplan;
      [vm_compute in Hplan; discriminate Hplan|].
    exists p. split; [reflexivity|].
    destruct (proj2 C1_two_hop_deposit Scenario.env1 (Scenario.config1 "1.0") p
                Scenario.fresh (mkFee 700 0) Hplan)
      as (w' & hubc & dstc & hop2 & value & Hhub & Hdst & Hmain & Hsends & _ & _
          & Hdec & Heid & Hamt & Hmin).
    + vm_compute in Hplan. apply Ok_inj in Hplan. subst p.
      repeat split; vm_compute; reflexivity.
    + vm_compute in Hplan. apply Ok_inj in Hplan. subst p. reflexivity.
    + apply scenario_no_faults.
    + exists w', hop2, value.
      split; [exact Hmain|].
      split; [rewrite Hsends; reflexivity|].
      split; [exact Hdec|].
      vm_compute in Hhub, Hdst. injection Hhub as <-. injection Hdst as <-.
      split; [exact Heid|].
      specialize (Hmin eq_refl).
      vm_compute in Hplan. apply Ok_inj in Hplan. subst p.
      cbn in Hamt. split; [exact Hamt|]. rewrite Hmin, Hamt. reflexivity.
Defined.




(** C5, counterexample.  Part_001 on the sample deployment: the one hop
    goes to the composer on endpoint 30375, the hub, and carries 416 bytes
    of compose payload, which decode to an instruction for that same
    endpoint with zero value: a terminal hop whose payload is not ['0x']. *)
Lemma C5_counterexample :
  exists p nested,
    Part001.plan Scenario.env001 (Scenario.config001 "1.0") = Ok p /\
    addressToBytes32 Scenario.env001
      (Part001.hub_composer (Scenario.config001 "1.0"))
      = Ok (to (Part001.sendParam p)) /\
    dstEid (Part001.sendParam p) = 30375 /\
    Part001.hubEid p = 30375 /\
    ComposeCodec.decode (composeMsg (Part001.sendParam p)) = Some (nested, 0) /\
    dstEid nested = 30375 /\
    length (composeMsg (Part001.sendParam p)) = 416%nat /\
    composeMsg (Part001.sendParam p) <> hex_empty.
Proof.
  destruct (Part001.plan Scenario.env001 (Scenario.config001 "1.0"))
    as [e|p] eqn:Hplan; [vm_compute in Hplan; discriminate Hplan|].
  vm_compute in Hplan. apply Ok_inj in Hplan. subst p.
  eexists _, _. split; [reflexivity|].
  split; [vm_compute; reflexivity|].
  split; [reflexivity|]. split; [reflexivity|].
  split; [vm_compute; reflexivity|].
  split; [reflexivity|]. split; [vm_compute; reflexivity|].
  vm_compute. discriminate.
Qed.

(** The amended C5 on the sample deployment, and on part_001 with the
    composer itself as the recipient: the nested instruction is then
    addressed to the composer and still carries ['0x']. *)
Lemma C5_witness :
  (exists p,
      Part001.plan Scenario.env001 (Scenario.config001 "1.0") = Ok p /\
      composeMsg (Part001.sendParam p) <> hex_empty /\
      ComposeCodec.decode (composeMsg (Part001.sendParam p))
        = Some (Part001.secondHopSendParam p, 0) /\
      dstEid (Part001.secondHopSendParam p) = dstEid (Part001.sendParam p) /\
      composeMsg (Part001.secondHopSendParam p) = hex_empty)
  /\
  (exists p,
      Part001.plan Scenario.env001
        (let c := Scenario.config001 "1.0" in
         Part001.mkConfig (Part001.privateKey c) (Part001.chains c)
           (Part001.hub_vault c) (Part001.hub_composer c)
           (Part001.source_assetOFT c) (Part001.srcChain c) (Part001.hubChain c)
           (Part001.amount c) (Part001.hub_composer c) (Part001.minAmount c)
           (Part001.lzComposeGas c)) = Ok p /\
      to (Part001.secondHopSendParam p) = to (Part001.sendParam p) /\
      composeMsg (Part001.sendParam p) <> hex_empty /\
      composeMsg (Part001.secondHopSendParam p) = hex_empty)
  /\
  (exists p,
      Script8.plan Scenario.env1 (Scenario.config8 "1.0") = Ok p /\
      composeMsg (Script8.sendParam p) <> hex_empty /\
      composeMsg (Script8.secondHopSendParam p) = hex_empty)
  /\
  (exists s hop,
      Script5.setup Scenario.env1 (Scenario.config5 "1.0") = Ok s /\
      Script5.buildSendParam Scenario.env1 (Scenario.config5 "1.0") s = Ok hop /\
      composeMsg hop = hex_empty).
Proof.
  destruct C5_compose_payload_presence as (H001 & H8 & H5).
  split; [|split; [|split]].
  - destruct (Part001.plan Scenario.env001 (Scenario.config001 "1.0"))
      as [e|p] eqn:Hplan; [vm_compute in Hplan; discriminate Hplan|].
    exists p. split; [reflexivity|].
    destruct (H001 Scenario.env001 (Scenario.config001 "1.0") p Hplan)
      as (_ & _ & Hne & Hdec & He1 & He2 & _ & Hnil).
    + vm_compute in Hplan. apply Ok_inj in Hplan. subst p.
      repeat split; vm_compute; reflexivity.
    + repeat split; try assumption. rewrite He1, He2. reflexivity.
  - match goal with
    | |- exists p, Part001.plan ?e ?c = _ /\ _ =>
        destruct (Part001.plan e c) as [err|p] eqn:Hplan;
          [vm_compute in Hplan; discriminate Hplan|];
        destruct (H001 e c p Hplan) as (_ & Hto & Hne & _ & _ & _ & Hrcpt & Hnil)
    end.
    + vm_compute in Hplan. apply Ok_inj in Hplan. subst p.
      repeat split; vm_compute; reflexivity.
    + exists p. split; [reflexivity|].
      split; [|split; assumption].
      cbn [Part001.recipientAddress Part001.hub_composer] in Hrcpt, Hto.
      rewrite Hto in Hrcpt. apply Ok_inj in Hrcpt. symmetry. exact Hrcpt.
  - destruct (Script8.plan Scenario.env1 (Scenario.config8 "1.0"))
      as [e|p] eqn:Hplan; [vm_compute in Hplan; discriminate Hplan|].
    exists p. split; [reflexivity|].
    destruct (H8 Scenario.env1 (Scenario.config8 "1.0") p Hplan)
      as (_ & _ & Hne & _ & _ & _ & _ & Hnil).
    + vm_compute in Hplan. apply Ok_inj in Hplan. subst p.
      repeat split; vm_compute; reflexivity.
    + repeat split; assumption.
  - destruct (Script5.setup Scenario.env1 (Scenario.config5 "1.0"))
      as [e|s] eqn:Hsetup; [vm_compute in Hsetup; discriminate Hsetup|].
    destruct (Script5.buildSendParam Scenario.env1 (Scenario.config5 "1.0") s)
      as [e|hop] eqn:Hbuild.
    { vm_compute in Hsetup. apply Ok_inj in Hsetup. subst s.
      vm_compute in Hbuild. discriminate Hbuild. }
    exists s, hop. split; [reflexivity|]. split; [exact Hbuild|].
    apply (H5 Scenario.env1 (Scenario.config5 "1.0") s hop Hbuild).
Defined.





(** C8 on the sample deployment: an ERC-20 asset in scripts 1 and
    part_001, the native currency in script 5. *)
Lemma C8_witness :
  (exists w' t,
      Script1.main Scenario.env1 (Scenario.config1 "1.0") Scenario.fresh = (w', Ok tt) /\
      sends w' = [t] /\ value_rule Scenario.env1 t)
  /\
  (exists w' oft sender hop fee refund,
      Script5.main Scenario.env1_native (Scenario.config5 "1.0") Scenario.fresh
        = (w', Ok tt) /\
      sends w' = [TxSend oft sender hop fee refund (1000 + 1000000000000000000)] /\
      value_rule Scenario.env1_native
        (TxSend oft sender hop fee refund (1000 + 1000000000000000000)))
  /\
  (exists w' t,
      Part001.main Scenario.env001 (Scenario.config001 "1.0") Scenario.fresh
        = (w', Ok tt) /\
      sends w' = [t] /\ value_rule Scenario.env001 t).
Proof.
  destruct C8_value_attached as (H1 & H5 & H001).
  repeat split.
  - destruct (Script1.main Scenario.env1 (Scenario.config1 "1.0") Scenario.fresh)
      as [w' r] eqn:Hrun.
    assert (Hr : r = Ok tt) by (vm_compute in Hrun; injection Hrun as _ <-; reflexivity).
    assert (Hs : exists t, sends w' = [t]).
    { vm_compute in Hrun. injection Hrun as <- _. eexists. vm_compute. reflexivity. }
    destruct Hs as (t & Hs).
    exists w', t. subst r. split; [reflexivity|]. split; [exact Hs|].
    destruct (H1 Scenario.env1 (Scenario.config1 "1.0") Scenario.fresh w' (Ok tt) t Hrun)
      as [Hold | Hrule]; [rewrite Hs; left; reflexivity | destruct Hold | exact Hrule].
  - destruct (Script5.main Scenario.env1_native (Scenario.config5 "1.0") Scenario.fresh)
      as [w' r] eqn:Hrun.
    assert (Hr : r = Ok tt) by (vm_compute in Hrun; injection Hrun as _ <-; reflexivity).
    assert (Hs : exists oft sender hop fee refund,
               sends w' = [TxSend oft sender hop fee refund (1000 + 1000000000000000000)]).
    { vm_compute in Hrun. injection Hrun as <- _. do 5 eexists. vm_compute. reflexivity. }
    destruct Hs as (oft & sender & hop & fee & refund & Hs).
    exists w', oft, sender, hop, fee, refund.
    subst r. split; [reflexivity|]. split; [exact Hs|].
    destruct (H5 Scenario.env1_native (Scenario.config5 "1.0") Scenario.fresh w' (Ok tt)
                (TxSend oft sender hop fee refund (1000 + 1000000000000000000)) Hrun)
      as [Hold | Hrule]; [rewrite Hs; left; reflexivity | destruct Hold | exact Hrule].
  - destruct (Part001.main Scenario.env001 (Scenario.config001 "1.0") Scenario.fresh)
      as [w' r] eqn:Hrun.
    assert (Hr : r = Ok tt) by (vm_compute in Hrun; injection Hrun as _ <-; reflexivity).
    assert (Hs : exists t, sends w' = [t]).
    { vm_compute in Hrun. injection Hrun as <- _. eexists. vm_compute. reflexivity. }
    destruct Hs as (t & Hs).
    exists w', t. subst r. split; [reflexivity|]. split; [exact Hs|].
    destruct (H001 Scenario.env001 (Scenario.config001 "1.0") Scenario.fresh w' (Ok tt) t Hrun)
      as [Hold | Hrule]; [rewrite Hs; left; reflexivity | destruct Hold | exact Hrule].
Defined.

(** C9 from a world with no allowance: one approval, then none. *)
Lemma C9_witness :
  (exists w1,
      Script11.approveUSDC Scenario.env11 (Scenario.config11 50) Scenario.wallet 200000
        Scenario.fresh = (w1, Ok tt) /\
      length (approvals w1) = 1%nat /\
      Script11.approveUSDC Scenario.env11 (Scenario.config11 50) Scenario.wallet 200000 w1
        = (w1, Ok tt))
  /\
  (exists w1,
      Common.handleApproval Scenario.env1 false
        (mkContract "https://base-sepolia.gateway.tenderly.co"
           "0x7777777777777777777777777777777777777777")
        Scenario.usdc_token Scenario.wallet
        "0x7777777777777777777777777777777777777777" 1000000 Scenario.fresh
        = (w1, Ok tt) /\
      length (approvals w1) = 1%nat /\
      Common.handleApproval Scenario.env1 false
        (mkContract "https://base-sepolia.gateway.tenderly.co"
           "0x7777777777777777777777777777777777777777")
        Scenario.usdc_token Scenario.wallet
        "0x7777777777777777777777777777777777777777" 1000000 w1
        = (w1, Ok tt)).
Proof.
  destruct C9_approval_idempotent as (H11 & H1).
  split.
  - destruct (H11 Scenario.env11 (Scenario.config11 50) Scenario.wallet 200000
                Scenario.fresh (scenario_no_faults _ _ _ _ _))
      as (w1 & Hrun & Happ & _ & _ & Hagain).
    + vm_compute. discriminate.
    + exists w1. split; [exact Hrun|]. split.
      * rewrite Happ. reflexivity.
      * apply Hagain. lia.
  - destruct (H1 Scenario.env1
                (mkContract "https://base-sepolia.gateway.tenderly.co"
                   "0x7777777777777777777777777777777777777777")
                Scenario.usdc_token Scenario.wallet
                "0x7777777777777777777777777777777777777777" 1000000
                Scenario.fresh (scenario_no_faults _ _ _ _ _) eq_refl)
      as (w1 & Hrun & Happ & _ & _ & Hagain).
    exists w1. split; [exact Hrun|]. split.
    + rewrite Happ. reflexivity.
    + apply Hagain. lia.
Defined.

